(** * Culinary Compass (Recipe_app.py): the recipe table, its filters and
      the add-recipe form, embedded from the source and verified.

    The program keeps one pandas DataFrame of recipes in the Streamlit
    session and re-runs [main] on every interaction.  The development
    models

    - Python values the way the program holds them: [str] as [string]
      (code points below 256), [int] as [Z], [float] as IEEE binary64
      ([spec_float] with precision 53), lists as [list];
    - the DataFrame as its rows in index order, each row a label and a
      record of the five columns;
    - the handlers in a small state/exception/output monad over the
      session state. *)

From Stdlib Require Import Bool List ZArith NArith Ascii String Lia SpecFloat.
From Stdlib Require Import Sorted Permutation.
Import ListNotations.

Local Open Scope string_scope.
Local Open Scope list_scope.

Set Implicit Arguments.

(** ** Python strings *)

Module Py.

(** [str.isspace] on one character, for code points below 256. *)
Definition isspace (c : ascii) : bool :=
  let n := N_of_ascii c in
  ((9 <=? n) && (n <=? 13) || (28 <=? n) && (n <=? 32)
   || (n =? 133) || (n =? 160))%N.

(** [s.lstrip()] *)
Fixpoint lstrip (s : string) : string :=
  match s with
  | EmptyString => EmptyString
  | String c rest => if isspace c then lstrip rest else s
  end.

(** [s.rstrip()] *)
Fixpoint rstrip (s : string) : string :=
  match s with
  | EmptyString => EmptyString
  | String c rest =>
      match rstrip rest with
      | EmptyString => if isspace c then EmptyString else String c EmptyString
      | kept => String c kept
      end
  end.

(** [s.strip()]: leading and trailing whitespace removed. *)
Definition strip (s : string) : string := rstrip (lstrip s).

(** [s.split(sep)] for a one-character separator: the text between
    consecutive separators, empty tokens kept; always at least one token. *)
Fixpoint split (sep : ascii) (s : string) : list string :=
  match s with
  | EmptyString => [EmptyString]
  | String c rest =>
      if Ascii.eqb c sep then EmptyString :: split sep rest
      else match split sep rest with
           | tok :: toks => String c tok :: toks
           | [] => [String c EmptyString]
           end
  end.

(** [sep.join(items)] *)
Fixpoint join (sep : string) (items : list string) : string :=
  match items with
  | [] => EmptyString
  | [x] => x
  | x :: rest => x ++ sep ++ join sep rest
  end.

(** Truthiness of a [str]: non-empty. *)
Definition truthy (s : string) : bool :=
  match s with EmptyString => false | String _ _ => true end.

(** Every character of [s] is whitespace. *)
Fixpoint all_space (s : string) : bool :=
  match s with
  | EmptyString => true
  | String c rest => isspace c && all_space rest
  end.

(** [c in s] for a character. *)
Fixpoint contains (c : ascii) (s : string) : bool :=
  match s with
  | EmptyString => false
  | String d rest => Ascii.eqb d c || contains c rest
  end.

Definition first_char (s : string) : option ascii :=
  match s with EmptyString => None | String c _ => Some c end.

Fixpoint last_char (s : string) : option ascii :=
  match s with
  | EmptyString => None
  | String c EmptyString => Some c
  | String _ rest => last_char rest
  end.

(** A string is trimmed when neither end is a whitespace character. *)
Definition trimmed (s : string) : bool :=
  match first_char s, last_char s with
  | Some a, Some b => negb (isspace a) && negb (isspace b)
  | _, _ => true
  end.

(** [sorted(items)] for strings: ascending by code points, equal items in
    their original order. *)
Fixpoint insert_sorted (x : string) (items : list string) : list string :=
  match items with
  | [] => [x]
  | y :: rest =>
      if String.leb x y then x :: items else y :: insert_sorted x rest
  end.

Fixpoint sorted (items : list string) : list string :=
  match items with
  | [] => []
  | x :: rest => insert_sorted x (sorted rest)
  end.

End Py.

(** ** Python floats

    A [float] is an IEEE binary64 value.  The program only compares
    floats, so the model needs the comparison and the literals. *)

Module Float.

Definition float := spec_float.

Definition prec : Z := 53.
Definition emax : Z := 1024.

(** A well-formed binary64 value. *)
Definition binary64 (x : float) : bool := valid_binary prec emax x.

(** [x <= y], [x >= y] and [x == y]; all three are false on NaN. *)
Definition le (x y : float) : bool := SFleb x y.
Definition ge (x y : float) : bool := SFleb y x.
Definition eq (x y : float) : bool := SFeqb x y.

(** The literals of the source, as the binary64 values Python reads them. *)
Definition f1_0 : float := S754_finite false 4503599627370496 (-52).
Definition f3_0 : float := S754_finite false 6755399441055744 (-51).
Definition f4_0 : float := S754_finite false 4503599627370496 (-50).
Definition f5_0 : float := S754_finite false 5629499534213120 (-50).
Definition f4_5 : float := S754_finite false 5066549580791808 (-50).
Definition f4_8 : float := S754_finite false 5404319552844595 (-50).
Definition f3_7 : float := S754_finite false 8331659310635418 (-51).

(** [x] is a positive binary64 value within half a unit in the last place
    of the decimal [num / den]: the value a decimal literal is read as. *)
Definition reads_as (num den : Z) (x : float) : bool :=
  match x with
  | S754_finite false m (Zneg p) =>
      binary64 x &&
      (2 * Z.abs (Zpos m * den - num * 2 ^ Zpos p) <=? den)%Z
  | _ => false
  end.

End Float.

(** ** The recipe table *)

(** One row of the table: the five columns. *)
Record recipe := mkRecipe {
  Cuisine : string;
  Ingredients : list string;
  Prep_Time : Z;
  Difficulty : string;
  Rating : Float.float
}.

(** A DataFrame: rows in index order, each with its index label (the
    recipe name). *)
Definition DataFrame := list (string * recipe).

Module pd.

(** [df.index] *)
Definition index (df : DataFrame) : list string := map fst df.

(** [df[col]]: the values of one column, in row order. *)
Definition column {A} (col : recipe -> A) (df : DataFrame) : list A :=
  map (fun row => col (snd row)) df.

(** [series <= v], [series >= v], [series == v] and [series.isin(values)]:
    element-wise, one boolean per row. *)
Definition le_scalar (series : list Z) (v : Z) : list bool :=
  map (fun x => (x <=? v)%Z) series.

Definition ge_scalar (series : list Float.float) (v : Float.float)
  : list bool :=
  map (fun x => Float.ge x v) series.

Definition eq_scalar (series : list string) (v : string) : list bool :=
  map (fun x => String.eqb x v) series.

Definition isin (series : list string) (values : list string) : list bool :=
  map (fun x => existsb (String.eqb x) values) series.

(** [a & b] on two boolean series over the same index. *)
Fixpoint and_ (a b : list bool) : list bool :=
  match a, b with
  | x :: a', y :: b' => (x && y) :: and_ a' b'
  | _, _ => []
  end.

(** [df[mask]]: the rows whose mask entry is [True], in order. *)
Fixpoint getitem_mask (df : DataFrame) (mask : list bool) : DataFrame :=
  match df, mask with
  | row :: df', keep :: mask' =>
      if keep then row :: getitem_mask df' mask' else getitem_mask df' mask'
  | _, _ => []
  end.

(** [label in df.index] *)
Definition has_label (label : string) (df : DataFrame) : bool :=
  existsb (fun row => String.eqb (fst row) label) df.

(** [df.loc[label]] for a single row; [None] for a missing label
    ([KeyError]). *)
Definition loc (label : string) (df : DataFrame) : option recipe :=
  option_map snd (find (fun row => String.eqb (fst row) label) df).

(** [df.loc[label] = values]: the rows carrying the label take the new
    values in place; when no row carries it, a row is appended. *)
Definition set_loc (label : string) (values : recipe) (df : DataFrame)
  : DataFrame :=
  if has_label label df then
    map (fun row => if String.eqb (fst row) label then (fst row, values)
                    else row) df
  else df ++ [(label, values)].

(** [df.empty] *)
Definition empty (df : DataFrame) : bool :=
  match df with [] => true | _ => false end.

(** [series.unique()]: the distinct values in order of first appearance. *)
Fixpoint unique (series : list string) : list string :=
  match series with
  | [] => []
  | x :: rest =>
      x :: filter (fun y => negb (String.eqb y x)) (unique rest)
  end.

(** [series.value_counts()]: each distinct value with its number of
    occurrences (listed in order of first appearance; the chart orders its
    own axis). *)
Definition value_counts (series : list string) : list (string * nat) :=
  map (fun v => (v, count_occ string_dec series v)) (unique series).

End pd.

(** ** The session, the page and the handlers' monad *)

(** [st.session_state]: the one attribute the program uses, absent until
    [initialize_data] has run. *)
Record session_state := mkSession { recipes : option DataFrame }.

Inductive exn := AttributeError | ValueError.

Inductive outcome (A : Type) :=
| Ok (a : A)
| Raise (e : exn).
Arguments Ok {A} a.
Arguments Raise {A} e.

(** The figure [create_time_distribution] builds: a histogram of a column. *)
Record figure := mkFigure {
  hist_data : list Z;
  hist_bins : nat;
  hist_title : string
}.

Section App.

(** The word-cloud library is not part of the program: the image type and
    [WordCloud(...).generate(text).to_image()] are taken as given. *)
Variable image : Type.
Variable generate : string -> outcome image.

(** What a handler puts on the page, in order.  Message texts are the
    source's without their emoji prefix. *)
Inductive element :=
| Header (text : string)
| Subheader_found (count : nat)
| Markdown_card (name : string) (data : recipe)
| Image (img : image)
| Warning (text : string)
| Success (text : string)
| Error (text : string)
| Pyplot (fig : figure)
| Bar_chart (counts : list (string * nat)).

Record world := mkWorld {
  session : session_state;
  page : list element
}.

(** A computation reads and writes the session, appends to the page and
    may raise. *)
Definition App (A : Type) : Type := world -> outcome A * world.

Definition ret {A} (a : A) : App A := fun w => (Ok a, w).

Definition bind {A B} (m : App A) (k : A -> App B) : App B :=
  fun w =>
    match m w with
    | (Ok a, w') => k a w'
    | (Raise e, w') => (Raise e, w')
    end.

Definition raise {A} (e : exn) : App A := fun w => (Raise e, w).

Definition lift {A} (r : outcome A) : App A := fun w => (r, w).

Definition emit (e : element) : App unit :=
  fun w => (Ok tt, {| session := session w; page := page w ++ [e] |}).

(** [st.session_state.recipes] read; a missing attribute raises. *)
Definition get_recipes : App DataFrame :=
  fun w =>
    match recipes (session w) with
    | Some df => (Ok df, w)
    | None => (Raise AttributeError, w)
    end.

(** The table in the session replaced by its mutated value. *)
Definition put_recipes (df : DataFrame) : App unit :=
  fun w => (Ok tt, {| session := {| recipes := Some df |}; page := page w |}).

Notation "x <- m ;; k" := (bind m (fun x => k))
  (at level 61, m at next level, right associativity).
Notation "m ;; k" := (bind m (fun _ => k))
  (at level 61, right associativity).

(** [for x in items: body(x)] *)
Fixpoint for_each {A} (items : list A) (body : A -> App unit) : App unit :=
  match items with
  | [] => ret tt
  | x :: rest => body x ;; for_each rest body
  end.

(** *** Core functionality *)

Definition seed_recipes : DataFrame :=
  [ ("Spaghetti Carbonara",
     mkRecipe "Italian" ["Pasta"; "Eggs"; "Cheese"; "Bacon"] 20 "Medium"
              Float.f4_5);
    ("Chicken Tikka Masala",
     mkRecipe "Indian" ["Chicken"; "Yogurt"; "Spices"; "Tomato Sauce"] 45
              "Hard" Float.f4_8);
    ("Avocado Toast",
     mkRecipe "American" ["Bread"; "Avocado"; "Salt"; "Pepper"] 5 "Easy"
              Float.f3_7) ].

Definition initialize_data : App unit :=
  fun w =>
    match recipes (session w) with
    | None =>
        (Ok tt, {| session := {| recipes := Some seed_recipes |};
                   page := page w |})
    | Some _ => (Ok tt, w)
    end.

(** *** Visualizations *)

(** The text handed to the word cloud: every ingredient of every row,
    separated by single spaces. *)
Definition ingredient_text (df : DataFrame) : string :=
  Py.join " " (map (Py.join " ") (pd.column Ingredients df)).

Definition create_ingredient_cloud (df : DataFrame) : outcome image :=
  generate (ingredient_text df).

Definition create_time_distribution (df : DataFrame) : figure :=
  {| hist_data := pd.column Prep_Time df;
     hist_bins := 8;
     hist_title := "Cooking Time Distribution" |}.

(** [generate_recipe_card]: the card is a fixed template around the name
    and the row, so it is kept as that pair. *)
Definition generate_recipe_card (name : string) (data : recipe) : element :=
  Markdown_card name data.

Definition render_cards (df : DataFrame) : App unit :=
  for_each df (fun row => emit (generate_recipe_card (fst row) (snd row))).

(** *** Widget values

    Each run of the script reads the widgets of the selected page; the
    records hold what the widgets returned on that run. *)

Record explorer_widgets := mkExplorer {
  selected_cuisine : string
}.

Record search_widgets := mkSearch {
  max_time : Z;
  min_rating : Float.float;
  difficulty : list string
}.

Record form_widgets := mkForm {
  name : string;
  cuisine : string;
  ingredients : string;
  prep_time : Z;
  form_difficulty : string;
  rating : Float.float;
  submitted : bool
}.

(** The sidebar radio with the page's widget values. *)
Inductive interaction :=
| Recipe_Explorer (w : explorer_widgets)
| Smart_Search (w : search_widgets)
| Add_Recipe (w : form_widgets)
| Food_Analytics.

Definition difficulty_options : list string := ["Easy"; "Medium"; "Hard"].

(** What the widgets can return, from their declarations:
    [st.number_input(label, lo, hi)] an integer in [lo..hi],
    [st.slider(label, lo, hi, default)] a value in [lo..hi],
    [st.selectbox(label, options)] one of the options and
    [st.multiselect(label, options)] a list of options. *)
Definition number_input_returns (lo hi v : Z) : bool :=
  ((lo <=? v) && (v <=? hi))%Z.

Definition slider_int_returns (lo hi v : Z) : bool :=
  ((lo <=? v) && (v <=? hi))%Z.

Definition slider_float_returns (lo hi v : Float.float) : bool :=
  Float.le lo v && Float.le v hi.

Definition selectbox_returns (options : list string) (v : string) : bool :=
  existsb (String.eqb v) options.

Definition multiselect_returns (options : list string) (vs : list string)
  : bool :=
  forallb (fun v => existsb (String.eqb v) options) vs.

Definition form_widgets_ok (w : form_widgets) : bool :=
  number_input_returns 1 240 (prep_time w)
  && selectbox_returns difficulty_options (form_difficulty w)
  && slider_float_returns Float.f1_0 Float.f5_0 (rating w).

Definition search_widgets_ok (w : search_widgets) : bool :=
  slider_int_returns 5 120 (max_time w)
  && slider_float_returns Float.f1_0 Float.f5_0 (min_rating w)
  && multiselect_returns difficulty_options (difficulty w).

Definition widgets_ok (i : interaction) : bool :=
  match i with
  | Smart_Search w => search_widgets_ok w
  | Add_Recipe w => form_widgets_ok w
  | Recipe_Explorer _ | Food_Analytics => true
  end.

(** *** Mode handlers *)

Definition handle_recipe_explorer (w : explorer_widgets) : App unit :=
  emit (Header "Cuisine Explorer") ;;
  df <- get_recipes ;;
  let filtered :=
    pd.getitem_mask df
      (pd.eq_scalar (pd.column Cuisine df) (selected_cuisine w)) in
  render_cards filtered ;;
  emit (Header "Ingredient Cloud") ;;
  img <- lift (create_ingredient_cloud df) ;;
  emit (Image img).

(** The selection of [handle_smart_search]: three column masks joined
    with [&], then the rows the joint mask keeps. *)
Definition smart_search_filter (df : DataFrame) (max_time : Z)
    (min_rating : Float.float) (difficulty : list string) : DataFrame :=
  pd.getitem_mask df
    (pd.and_
       (pd.and_ (pd.le_scalar (pd.column Prep_Time df) max_time)
                (pd.ge_scalar (pd.column Rating df) min_rating))
       (pd.isin (pd.column Difficulty df) difficulty)).

Definition handle_smart_search (w : search_widgets) : App unit :=
  emit (Header "Advanced Search") ;;
  df <- get_recipes ;;
  let filtered :=
    smart_search_filter df (max_time w) (min_rating w) (difficulty w) in
  if negb (pd.empty filtered) then
    emit (Subheader_found (List.length filtered)) ;;
    render_cards filtered
  else
    emit (Warning
            "No recipes match these criteria. Try adjusting your filters!").

Definition new_recipe (w : form_widgets) : recipe :=
  {| Cuisine := cuisine w;
     Ingredients := map Py.strip (Py.split "," (ingredients w));
     Prep_Time := prep_time w;
     Difficulty := form_difficulty w;
     Rating := rating w |}.

Definition handle_add_recipe (w : form_widgets) : App unit :=
  emit (Header "Share Your Creation") ;;
  if submitted w then
    if Py.truthy (name w) && Py.truthy (cuisine w) then
      df <- get_recipes ;;
      put_recipes (pd.set_loc (name w) (new_recipe w) df) ;;
      emit (Success "Recipe added successfully!")
    else
      emit (Error "Please provide at least a recipe name and cuisine type")
  else ret tt.

Definition handle_analytics : App unit :=
  emit (Header "Culinary Analytics") ;;
  df <- get_recipes ;;
  emit (Pyplot (create_time_distribution df)) ;;
  df <- get_recipes ;;
  emit (Bar_chart (pd.value_counts (pd.column Cuisine df))) ;;
  df <- get_recipes ;;
  img <- lift (create_ingredient_cloud df) ;;
  emit (Image img).

(** *** Main interface

    One run of the script: the table is created when the session has
    none, then the selected page runs.  (The static page set-up, style
    sheet and sidebar put nothing in the session and are left out.) *)
Definition main (i : interaction) : App unit :=
  initialize_data ;;
  match i with
  | Recipe_Explorer w => handle_recipe_explorer w
  | Smart_Search w => handle_smart_search w
  | Add_Recipe w => handle_add_recipe w
  | Food_Analytics => handle_analytics
  end.

(** The script run on a session with a blank page. *)
Definition run (s : session_state) (i : interaction) : outcome unit * world :=
  main i {| session := s; page := [] |}.

(** The session a run leaves behind, whether or not it raised. *)
Definition session_after (s : session_state) (i : interaction)
  : session_state :=
  session (snd (run s i)).

(** The session after a sequence of runs. *)
Definition session_after_all (s : session_state) (runs : list interaction)
  : session_state :=
  fold_left session_after runs s.

Definition new_session : session_state := {| recipes := None |}.

(** Number of rows of the session's table (none before it is created). *)
Definition store_size (s : session_state) : nat :=
  match recipes s with Some df => List.length df | None => 0 end.

End App.

Arguments Header {image} text.
Arguments Subheader_found {image} count.
Arguments Markdown_card {image} name data.
Arguments Warning {image} text.
Arguments Success {image} text.
Arguments Error {image} text.
Arguments Pyplot {image} fig.
Arguments Bar_chart {image} counts.

(** ** Specification vocabulary *)

(** The row-wise reading of the three masks. *)
Definition matches (P : Z) (R : Float.float) (D : list string) (r : recipe)
  : bool :=
  (Prep_Time r <=? P)%Z && Float.ge (Rating r) R
  && existsb (String.eqb (Difficulty r)) D.

Definition added_page {image} (before : list (element image))
  : list (element image) :=
  before ++ [Header "Share Your Creation";
             Success "Recipe added successfully!"].

Definition rejected_page {image} (before : list (element image))
  : list (element image) :=
  before ++ [Header "Share Your Creation";
             Error "Please provide at least a recipe name and cuisine type"].

(** [m] may write to the page or raise, but hands the session on as it
    received it. *)
Definition frames {image A} (m : App image A) : Prop :=
  forall wd, session (snd (m wd)) = session wd.

(** The table the handlers of a run see: the session's, or the seed table
    when the session had none. *)
Definition table_at_start (s : session_state) : DataFrame :=
  match recipes s with Some df => df | None => seed_recipes end.

(** The form is submitted with a name and a cuisine. *)
Definition accepted (w : form_widgets) : bool :=
  submitted w && (Py.truthy (name w) && Py.truthy (cuisine w)).

(** The table a run leaves in the session. *)
Definition table_after (s : session_state) (i : interaction) : DataFrame :=
  match i with
  | Add_Recipe w =>
      if accepted w then pd.set_loc (name w) (new_recipe w) (table_at_start s)
      else table_at_start s
  | _ => table_at_start s
  end.

(** [tok] is [raw] without its surrounding whitespace: [raw] is [tok]
    between two runs of whitespace, and [tok] neither starts nor ends with
    a whitespace character. *)
Definition trims_to (raw tok : string) : Prop :=
  (exists pre post,
      raw = (pre ++ tok ++ post)%string
      /\ Py.all_space pre = true /\ Py.all_space post = true)
  /\ Py.trimmed tok = true.

(** The data-model invariant of a row: a positive prep time, one of the
    three difficulties, a rating from 1.0 to 5.0. *)
Definition recipe_ok (r : recipe) : bool :=
  (0 <? Prep_Time r)%Z
  && existsb (String.eqb (Difficulty r)) difficulty_options
  && (Float.le Float.f1_0 (Rating r) && Float.le (Rating r) Float.f5_0).

Definition table_ok (df : DataFrame) : bool :=
  forallb (fun row => recipe_ok (snd row)) df.

(** The labels of the session's table (none before it is created). *)
Definition labels (s : session_state) : list string :=
  match recipes s with Some df => pd.index df | None => [] end.

(** What the program can rely on from the word-cloud library: a text of
    nothing but whitespace holds no word, and generating from no word
    raises [ValueError]. *)
Definition wordcloud_contract {image} (generate : string -> outcome image)
  : Prop :=
  forall text, Py.all_space text = true -> generate text = Raise ValueError.

(** The least generator with that behaviour, the text standing for its
    picture; used to run the script on concrete sessions. *)
Definition text_cloud (text : string) : outcome string :=
  if Py.all_space text then Raise ValueError else Ok text.

(** Sample submissions. *)
Definition form_X : form_widgets :=
  mkForm "X" "Y" "a, b ,c" 10 "Easy" Float.f4_0 true.

Definition recipe_X : recipe :=
  mkRecipe "Y" ["a"; "b"; "c"] 10 "Easy" Float.f4_0.

Definition form_blank_name : form_widgets :=
  mkForm "" "Y" "a, b ,c" 10 "Easy" Float.f4_0 true.

Definition form_space_name : form_widgets :=
  mkForm " " "Y" "" 10 "Easy" Float.f4_0 true.

Definition form_space_X : form_widgets :=
  mkForm " X" "Z" "d" 30 "Hard" Float.f3_0 true.

Definition form_carbonara : form_widgets :=
  mkForm "Spaghetti Carbonara" "Roman" "Guanciale, Eggs" 25 "Hard"
         Float.f5_0 true.

(** A submission that blanks the ingredients of the row [label]. *)
Definition form_no_ingredients (label : string) : form_widgets :=
  mkForm label "None" "" 1 "Easy" Float.f1_0 true.

(** A session holding the seed table, and a world on it with a blank
    page. *)
Definition seed_session : session_state := {| recipes := Some seed_recipes |}.

Definition seed_world : world string :=
  {| session := seed_session; page := [] |}.

Definition carbonara_row : string * recipe :=
  ("Spaghetti Carbonara",
   mkRecipe "Italian" ["Pasta"; "Eggs"; "Cheese"; "Bacon"] 20 "Medium"
            Float.f4_5).

Definition search_default : search_widgets :=
  mkSearch 60 Float.f3_0 ["Easy"; "Medium"].

(** ** Further pieces of the pages *)

(** [sorted(st.session_state.recipes['Cuisine'].unique())]: the options of
    the explorer's cuisine selector. *)
Definition cuisine_options (df : DataFrame) : list string :=
  Py.sorted (pd.unique (pd.column Cuisine df)).

(** The selector opens on [index=0], the first option. *)
Definition default_cuisine (df : DataFrame) : option string :=
  hd_error (cuisine_options df).

(** [', '.join(data['Ingredients'])]: the ingredients line of a card. *)
Definition card_ingredients (data : recipe) : string :=
  Py.join ", " (Ingredients data).

(** The cards of some rows, as [render_cards] emits them. *)
Definition cards {image} (rows : DataFrame) : list (element image) :=
  map (fun row => Markdown_card (fst row) (snd row)) rows.

(** The rows shown as cards on a page, in order. *)
Definition cards_on {image} (pg : list (element image)) : DataFrame :=
  flat_map (fun e => match e with
                     | Markdown_card n d => [(n, d)]
                     | _ => []
                     end) pg.

(** The rows of a table with a given cuisine. *)
Definition with_cuisine (c : string) (df : DataFrame) : DataFrame :=
  filter (fun row => String.eqb (Cuisine (snd row)) c) df.

(** What a cloud attempt leaves on the page and returns. *)
Definition cloud_elements {image} (r : outcome image) : list (element image) :=
  match r with Ok img => [Image img] | Raise _ => [] end.

Definition cloud_result {image} (r : outcome image) : outcome unit :=
  match r with Ok _ => Ok tt | Raise e => Raise e end.

(** The three pages, as lists of elements. *)
Definition explorer_page {image} (c : string) (df : DataFrame)
    (cloud : outcome image) : list (element image) :=
  [Header "Cuisine Explorer"] ++ cards (with_cuisine c df)
  ++ [Header "Ingredient Cloud"] ++ cloud_elements cloud.

Definition search_page {image} (found : DataFrame) : list (element image) :=
  Header "Advanced Search"
  :: match found with
     | [] => [Warning
                "No recipes match these criteria. Try adjusting your filters!"]
     | _ => Subheader_found (List.length found) :: cards found
     end.



(** The widest search the sliders allow. *)
Definition search_widest : search_widgets :=
  mkSearch 120 Float.f1_0 ["Easy"; "Medium"; "Hard"].

Definition form_slow : form_widgets :=
  mkForm "Cassoulet" "French" "Beans, Duck" 180 "Hard" Float.f5_0 true.

Definition form_X_again : form_widgets :=
  mkForm "X" "Z" "d , e" 30 "Hard" Float.f3_0 true.

(** A stored ingredient is clean when it holds no comma and neither starts
    nor ends with whitespace; a row's ingredients are clean when there is
    at least one and each is clean. *)
Definition clean_token (tok : string) : bool :=
  negb (Py.contains "," tok) && Py.trimmed tok.

Definition ingredients_clean (r : recipe) : bool :=
  negb (match Ingredients r with [] => true | _ => false end)
  && forallb clean_token (Ingredients r).


(** The form filled in again from a card: same name and cuisine, the
    card's ingredients line as the ingredient text. *)
Definition form_from_card (label : string) (data : recipe) : form_widgets :=
  mkForm label (Cuisine data) (card_ingredients data) (Prep_Time data)
         (Difficulty data) (Rating data) true.


(** * Properties *)

(** ** Strings *)

Example strip_ex : Py.strip " b " = "b".
Proof. reflexivity. Qed.

Example split_ex : Py.split "," "a, b ,c" = ["a"; " b "; "c"].
Proof. reflexivity. Qed.

Example split_empty_ex : Py.split "," "" = [""].
Proof. reflexivity. Qed.

Lemma split_not_nil sep s : Py.split sep s <> [].
Proof.
  destruct s as [|c rest]; simpl; [discriminate|].
  destruct (Ascii.eqb c sep); [discriminate|].
  destruct (Py.split sep rest); discriminate.
Qed.

Lemma join_cons sep x items :
  items <> [] ->
  Py.join sep (x :: items) = (x ++ sep ++ Py.join sep items)%string.
Proof. destruct items; [congruence|reflexivity]. Qed.

(** Joining the tokens with the separator gives the text back. *)
Lemma join_split sep s :
  Py.join (String sep EmptyString) (Py.split sep s) = s.
Proof.
  induction s as [|c rest IH]; simpl; [reflexivity|].
  destruct (Ascii.eqb_spec c sep) as [->|Hne].
  - rewrite join_cons by apply split_not_nil. rewrite IH. reflexivity.
  - generalize (split_not_nil sep rest).
    destruct (Py.split sep rest) as [|t ts] eqn:E; [congruence|intros _].
    destruct ts as [|t' ts'].
    + simpl in *. congruence.
    + rewrite join_cons by discriminate.
      rewrite join_cons in IH by discriminate.
      rewrite <- IH. reflexivity.
Qed.

(** No token holds the separator. *)
Lemma split_tokens_free sep s :
  Forall (fun tok => Py.contains sep tok = false) (Py.split sep s).
Proof.
  induction s as [|c rest IH]; simpl.
  - constructor; [reflexivity|constructor].
  - destruct (Ascii.eqb c sep) eqn:E.
    + constructor; [reflexivity|exact IH].
    + destruct (Py.split sep rest) as [|t ts].
      * constructor; [simpl; rewrite E; reflexivity|constructor].
      * inversion IH; subst. constructor; [|assumption].
        simpl. rewrite E. assumption.
Qed.

Lemma lstrip_spec s :
  exists pre, s = (pre ++ Py.lstrip s)%string /\ Py.all_space pre = true.
Proof.
  induction s as [|c rest [pre [Heq Hsp]]]; simpl.
  - exists EmptyString. split; reflexivity.
  - destruct (Py.isspace c) eqn:E.
    + exists (String c pre). simpl. rewrite E, Hsp.
      split; [f_equal; exact Heq|reflexivity].
    + exists EmptyString. split; reflexivity.
Qed.

Lemma rstrip_spec s :
  exists post, s = (Py.rstrip s ++ post)%string /\ Py.all_space post = true.
Proof.
  induction s as [|c rest [post [Heq Hsp]]]; simpl.
  - exists EmptyString. split; reflexivity.
  - destruct (Py.rstrip rest) as [|d kept] eqn:E.
    + destruct (Py.isspace c) eqn:Ec.
      * exists (String c post). simpl in *. rewrite Ec, Hsp.
        split; [f_equal; exact Heq|reflexivity].
      * exists post. simpl in *. split; [f_equal; exact Heq|exact Hsp].
    + exists post. simpl in *. split; [f_equal; exact Heq|exact Hsp].
Qed.

Lemma lstrip_first s c :
  Py.first_char (Py.lstrip s) = Some c -> Py.isspace c = false.
Proof.
  induction s as [|d rest IH]; simpl; [discriminate|].
  destruct (Py.isspace d) eqn:E; [exact IH|].
  simpl. intros [= <-]. exact E.
Qed.

Lemma rstrip_last s c :
  Py.last_char (Py.rstrip s) = Some c -> Py.isspace c = false.
Proof.
  induction s as [|d rest IH]; simpl; [discriminate|].
  destruct (Py.rstrip rest) as [|e kept] eqn:E.
  - destruct (Py.isspace d) eqn:Ed; simpl; [discriminate|].
    intros [= <-]. exact Ed.
  - intros H. apply IH. exact H.
Qed.

Lemma rstrip_first s c :
  Py.first_char (Py.rstrip s) = Some c -> Py.first_char s = Some c.
Proof.
  destruct s as [|d rest]; simpl; [discriminate|].
  destruct (Py.rstrip rest).
  - destruct (Py.isspace d); simpl; [discriminate|trivial].
  - trivial.
Qed.

(** [strip] removes whitespace only, from both ends, and leaves a string
    whose ends are not whitespace. *)
Lemma strip_spec s :
  (exists pre post,
      s = (pre ++ Py.strip s ++ post)%string
      /\ Py.all_space pre = true /\ Py.all_space post = true)
  /\ Py.trimmed (Py.strip s) = true.
Proof.
  unfold Py.strip. split.
  - destruct (lstrip_spec s) as [pre [H1 H2]].
    destruct (rstrip_spec (Py.lstrip s)) as [post [H3 H4]].
    exists pre, post. repeat split; try assumption.
    rewrite <- H3. exact H1.
  - unfold Py.trimmed.
    destruct (Py.first_char (Py.rstrip (Py.lstrip s))) as [a|] eqn:Ea;
      [|reflexivity].
    destruct (Py.last_char (Py.rstrip (Py.lstrip s))) as [b|] eqn:Eb;
      [|reflexivity].
    apply rstrip_first in Ea. apply lstrip_first in Ea.
    apply rstrip_last in Eb. rewrite Ea, Eb. reflexivity.
Qed.

(** ** Floats *)

Lemma literals_binary64 :
  forallb Float.binary64
    [Float.f1_0; Float.f3_0; Float.f4_0; Float.f5_0;
     Float.f4_5; Float.f4_8; Float.f3_7] = true.
Proof. vm_compute. reflexivity. Qed.

Lemma literals_read :
  Float.reads_as 10 10 Float.f1_0 = true
  /\ Float.reads_as 30 10 Float.f3_0 = true
  /\ Float.reads_as 40 10 Float.f4_0 = true
  /\ Float.reads_as 50 10 Float.f5_0 = true
  /\ Float.reads_as 45 10 Float.f4_5 = true
  /\ Float.reads_as 48 10 Float.f4_8 = true
  /\ Float.reads_as 37 10 Float.f3_7 = true.
Proof. vm_compute. repeat split. Qed.

Lemma compare_cont_Eq_sym m1 m2 :
  Pos.compare_cont Eq m1 m2 = Eq -> Pos.compare_cont Eq m2 m1 = Eq.
Proof.
  change (Pos.compare_cont Eq m1 m2) with (Pos.compare m1 m2).
  change (Pos.compare_cont Eq m2 m1) with (Pos.compare m2 m1).
  intros H. apply Pos.compare_eq in H. subst. apply Pos.compare_refl.
Qed.

(** Equal floats are ordered both ways: the comparisons include their
    boundary. *)
Lemma float_eq_ge x y : Float.eq x y = true -> Float.ge x y = true.
Proof.
  unfold Float.eq, Float.ge, SFeqb, SFleb.
  destruct x as [sx|sx| |sx mx ex], y as [sy|sy| |sy my ey]; simpl;
    try discriminate; try reflexivity;
    try (destruct sx, sy; simpl; try discriminate; reflexivity);
    try (destruct sx; discriminate); try (destruct sy; discriminate).
  destruct sx, sy; try discriminate.
  - rewrite (Z.compare_antisym ey ex).
    destruct (ey ?= ex)%Z eqn:E; simpl; try discriminate.
    destruct (Pos.compare_cont Eq mx my) eqn:Em; simpl; try discriminate.
    rewrite (compare_cont_Eq_sym _ _ Em). reflexivity.
  - rewrite (Z.compare_antisym ey ex).
    destruct (ey ?= ex)%Z eqn:E; simpl; try discriminate.
    destruct (Pos.compare_cont Eq mx my) eqn:Em; simpl; try discriminate.
    rewrite (compare_cont_Eq_sym _ _ Em). reflexivity.
Qed.

(** ** The smart-search selection *)

Lemma existsb_eqb_In x l : existsb (String.eqb x) l = true <-> In x l.
Proof.
  rewrite existsb_exists. split.
  - intros [y [Hin Heq]]. apply String.eqb_eq in Heq. subst. exact Hin.
  - intros Hin. exists x. split; [exact Hin|apply String.eqb_refl].
Qed.

(** Masking column by column selects the same rows, in the same order, as
    testing row by row. *)
Lemma smart_search_filter_rows df P R D :
  smart_search_filter df P R D = filter (fun row => matches P R D (snd row)) df.
Proof.
  unfold smart_search_filter, pd.le_scalar, pd.ge_scalar, pd.isin, pd.column.
  induction df as [|row df IH]; simpl; [reflexivity|].
  unfold matches at 1. rewrite IH.
  destruct (Prep_Time (snd row) <=? P)%Z, (Float.ge (Rating (snd row)) R),
    (existsb (String.eqb (Difficulty (snd row))) D); reflexivity.
Qed.

(** C1. The smart-search selection returns exactly the rows of the table
    with prep time at most P, rating at least R and difficulty among D: a
    row is selected if and only if it is in the table and passes the three
    tests (no false positives, no false negatives), the selected rows keep
    their order, and both numeric bounds are inclusive: a row with prep
    time equal to P, or with rating equal to R, is not excluded by that
    test. *)
Theorem smart_search_exact (df : DataFrame) (P : Z) (R : Float.float)
    (D : list string) :
  (forall row,
      In row (smart_search_filter df P R D) <->
      In row df /\ (Prep_Time (snd row) <= P)%Z
      /\ Float.ge (Rating (snd row)) R = true
      /\ In (Difficulty (snd row)) D)
  /\ smart_search_filter df P R D
     = filter (fun row => matches P R D (snd row)) df
  /\ (forall row,
         In row df -> In (Difficulty (snd row)) D ->
         (Prep_Time (snd row) = P
          /\ Float.ge (Rating (snd row)) R = true
          \/ (Prep_Time (snd row) <= P)%Z
             /\ Float.eq (Rating (snd row)) R = true) ->
         In row (smart_search_filter df P R D)).
Proof.
  assert (Hiff : forall row,
      In row (smart_search_filter df P R D) <->
      In row df /\ (Prep_Time (snd row) <= P)%Z
      /\ Float.ge (Rating (snd row)) R = true
      /\ In (Difficulty (snd row)) D).
  { intros row. rewrite smart_search_filter_rows, filter_In.
    unfold matches. rewrite !andb_true_iff, Z.leb_le, existsb_eqb_In.
    tauto. }
  split; [exact Hiff|]. split; [apply smart_search_filter_rows|].
  intros row Hin HD [[Hp Hr]|[Hp Hr]]; apply Hiff.
  - repeat split; try assumption. lia.
  - repeat split; try assumption. apply float_eq_ge. exact Hr.
Qed.

(** C7. With an empty allowed-difficulty list the smart-search selection is
    empty, for every table (so for every non-empty one), every prep-time
    ceiling and every rating floor. *)
Theorem smart_search_no_difficulty (df : DataFrame) (P : Z)
    (R : Float.float) :
  smart_search_filter df P R [] = [].
Proof.
  rewrite smart_search_filter_rows.
  induction df as [|row df IH]; simpl; [reflexivity|].
  unfold matches at 1. simpl. rewrite andb_false_r. exact IH.
Qed.

(** ** Row assignment *)

Lemma has_label_In label df :
  pd.has_label label df = true <-> In label (pd.index df).
Proof.
  unfold pd.has_label, pd.index. rewrite existsb_exists, in_map_iff. split.
  - intros [row [Hin Heq]]. apply String.eqb_eq in Heq. eauto.
  - intros [row [Heq Hin]]. exists row. split; [exact Hin|].
    apply String.eqb_eq. exact Heq.
Qed.

Lemma set_loc_index label values df :
  pd.index (pd.set_loc label values df)
  = if pd.has_label label df then pd.index df else pd.index df ++ [label].
Proof.
  unfold pd.set_loc, pd.index.
  destruct (pd.has_label label df).
  - rewrite map_map. apply map_ext. intros [l r]; simpl.
    destruct (String.eqb l label); reflexivity.
  - rewrite map_app. reflexivity.
Qed.

Lemma set_loc_length label values df :
  List.length (pd.set_loc label values df)
  = if pd.has_label label df then List.length df else S (List.length df).
Proof.
  rewrite <- (length_map fst (pd.set_loc label values df)).
  fold (pd.index (pd.set_loc label values df)). rewrite set_loc_index.
  unfold pd.index.
  destruct (pd.has_label label df); [|rewrite length_app; simpl];
    rewrite length_map; lia.
Qed.

Lemma loc_app_absent label df rows :
  pd.has_label label df = false ->
  pd.loc label (df ++ rows) = pd.loc label rows.
Proof.
  unfold pd.loc, pd.has_label.
  induction df as [|row df IH]; simpl; [reflexivity|].
  destruct (String.eqb (fst row) label); simpl; [discriminate|exact IH].
Qed.

(** The assigned row is read back under its label. *)
Lemma loc_set_loc_same label values df :
  pd.loc label (pd.set_loc label values df) = Some values.
Proof.
  unfold pd.set_loc. destruct (pd.has_label label df) eqn:Hl.
  - unfold pd.loc, pd.has_label in *.
    induction df as [|row df IH]; simpl in *; [discriminate|].
    destruct (String.eqb (fst row) label) eqn:E; simpl.
    + rewrite E. reflexivity.
    + rewrite E. apply IH. exact Hl.
  - rewrite loc_app_absent by exact Hl.
    unfold pd.loc. simpl. rewrite String.eqb_refl. reflexivity.
Qed.

(** Rows under other labels are untouched. *)
Lemma loc_set_loc_other label other values df :
  other <> label ->
  pd.loc other (pd.set_loc label values df) = pd.loc other df.
Proof.
  intros Hne. unfold pd.set_loc. destruct (pd.has_label label df).
  - unfold pd.loc. induction df as [|[l r] df IH]; simpl; [reflexivity|].
    destruct (String.eqb_spec l label) as [->|Hl]; simpl.
    + destruct (String.eqb_spec label other); [congruence|exact IH].
    + destruct (String.eqb l other); [reflexivity|exact IH].
  - unfold pd.loc. induction df as [|[l r] df IH]; simpl.
    + destruct (String.eqb_spec label other); [congruence|reflexivity].
    + destruct (String.eqb l other); [reflexivity|exact IH].
Qed.

Lemma truthy_nonempty s : Py.truthy s = true <-> s <> EmptyString.
Proof. destruct s; simpl; split; congruence. Qed.

Section Handlers.

Variable image : Type.
Variable generate : string -> outcome image.

(** A submission with a name and a cuisine assigns the row and reports
    success. *)
Lemma handle_add_recipe_accepts (w : form_widgets) (wd : world image) df :
  submitted w = true -> name w <> "" -> cuisine w <> "" ->
  recipes (session wd) = Some df ->
  handle_add_recipe w wd
  = (Ok tt,
     {| session :=
          {| recipes := Some (pd.set_loc (name w) (new_recipe w) df) |};
        page := added_page (page wd) |}).
Proof.
  intros Hs Hn Hc Hdf.
  apply truthy_nonempty in Hn. apply truthy_nonempty in Hc.
  unfold handle_add_recipe, added_page. rewrite Hs, Hn, Hc. simpl.
  unfold bind, emit, get_recipes, put_recipes. simpl. rewrite Hdf. simpl.
  rewrite <- app_assoc. reflexivity.
Qed.

(** A submission without a name or without a cuisine reports the error and
    returns the world's session as it found it. *)
Lemma handle_add_recipe_rejects (w : form_widgets) (wd : world image) :
  submitted w = true -> name w = "" \/ cuisine w = "" ->
  handle_add_recipe w wd
  = (Ok tt, {| session := session wd; page := rejected_page (page wd) |}).
Proof.
  intros Hs Hblank.
  assert (Hv : Py.truthy (name w) && Py.truthy (cuisine w) = false).
  { destruct Hblank as [H|H]; rewrite H; simpl;
      [reflexivity|apply andb_false_r]. }
  unfold handle_add_recipe, rejected_page. rewrite Hs, Hv.
  unfold bind, emit. simpl. rewrite <- app_assoc. reflexivity.
Qed.

(** *** Computations that leave the session alone *)

Lemma frames_ret {A} (a : A) : frames (ret a : App image A).
Proof. intros wd. reflexivity. Qed.

Lemma frames_emit (e : element image) : frames (emit e).
Proof. intros wd. reflexivity. Qed.

Lemma frames_lift {A} (r : outcome A) : frames (lift r : App image A).
Proof. intros wd. reflexivity. Qed.

Lemma frames_get_recipes : frames (@get_recipes image).
Proof.
  intros wd. unfold get_recipes.
  destruct (recipes (session wd)); reflexivity.
Qed.

Lemma frames_bind {A B} (m : App image A) (k : A -> App image B) :
  frames m -> (forall a, frames (k a)) -> frames (bind m k).
Proof.
  intros Hm Hk wd. unfold bind. specialize (Hm wd).
  destruct (m wd) as [[a|e] wd']; simpl in *; [|exact Hm].
  rewrite Hk. exact Hm.
Qed.

Lemma frames_for_each {A} (items : list A) (body : A -> App image unit) :
  (forall x, frames (body x)) -> frames (for_each items body).
Proof.
  intros Hb. induction items as [|x rest IH]; simpl.
  - apply frames_ret.
  - apply frames_bind; [apply Hb|intros _; exact IH].
Qed.

Create HintDb frame discriminated.
#[local] Hint Resolve frames_ret frames_emit frames_lift frames_get_recipes
  : frame.

Ltac frame_steps :=
  repeat first
    [ apply frames_bind; [|intro]
    | apply frames_for_each; intro
    | solve [auto with frame] ].

Lemma frames_render_cards df : frames (@render_cards image df).
Proof. unfold render_cards. frame_steps. Qed.

Lemma frames_recipe_explorer w : frames (handle_recipe_explorer generate w).
Proof.
  unfold handle_recipe_explorer. frame_steps.
Qed.

Lemma frames_smart_search w : frames (@handle_smart_search image w).
Proof.
  unfold handle_smart_search. frame_steps.
  destruct (negb _); frame_steps.
Qed.

Lemma frames_analytics : frames (handle_analytics generate).
Proof. unfold handle_analytics. frame_steps. Qed.

(** *** One run of the script *)

Lemma initialize_data_spec (wd : world image) :
  initialize_data wd
  = (Ok tt, {| session := {| recipes := Some (table_at_start (session wd)) |};
               page := page wd |}).
Proof.
  unfold initialize_data, table_at_start.
  destruct wd as [[[df|]] pg]; reflexivity.
Qed.

Lemma session_after_spec s i :
  session_after generate s i = {| recipes := Some (table_after s i) |}.
Proof.
  unfold session_after, run, main, bind. rewrite initialize_data_spec.
  cbv beta iota. set (wd := {| session := _; page := _ |}).
  assert (Hwd : session wd = {| recipes := Some (table_at_start s) |})
    by reflexivity.
  assert (Hwd_df : recipes (session wd) = Some (table_at_start s))
    by reflexivity.
  destruct i as [w|w|w|]; simpl table_after.
  - rewrite frames_recipe_explorer. exact Hwd.
  - rewrite frames_smart_search. exact Hwd.
  - unfold accepted. destruct (submitted w) eqn:Hs; simpl.
    + destruct (Py.truthy (name w) && Py.truthy (cuisine w)) eqn:Hv.
      * apply andb_true_iff in Hv. destruct Hv as [Hn Hc].
        apply truthy_nonempty in Hn. apply truthy_nonempty in Hc.
        rewrite (handle_add_recipe_accepts w wd Hs Hn Hc Hwd_df).
        reflexivity.
      * assert (Hblank : name w = "" \/ cuisine w = "").
        { apply andb_false_iff in Hv.
          destruct Hv as [H|H]; [left|right];
            [destruct (name w)|destruct (cuisine w)];
            simpl in H; congruence. }
        rewrite (handle_add_recipe_rejects w wd Hs Hblank). exact Hwd.
    + unfold handle_add_recipe. rewrite Hs. reflexivity.
  - rewrite frames_analytics. exact Hwd.
Qed.

End Handlers.

(** ** The add-recipe form *)

Lemma strip_trims_to raw : trims_to raw (Py.strip raw).
Proof. exact (strip_spec raw). Qed.

Lemma map_strip_trims raws : Forall2 trims_to raws (map Py.strip raws).
Proof.
  induction raws as [|raw raws IH]; simpl; constructor;
    [apply strip_trims_to|exact IH].
Qed.

Section AddRecipe.

Variable image : Type.

(** C2. Submitting the add-recipe form with a blank name or a blank
    cuisine reports the validation error and mutates nothing: the handler
    returns normally, the page gains the form's header and the error
    message, and the session (hence the table) is the one it started
    from. *)
Theorem add_recipe_blank_rejected (w : form_widgets) (wd : world image) :
  submitted w = true ->
  name w = "" \/ cuisine w = "" ->
  fst (handle_add_recipe w wd) = Ok tt
  /\ session (snd (handle_add_recipe w wd)) = session wd
  /\ page (snd (handle_add_recipe w wd))
     = page wd
       ++ [Header "Share Your Creation";
           Error "Please provide at least a recipe name and cuisine type"].
Proof.
  intros Hs Hblank. rewrite (handle_add_recipe_rejects w wd Hs Hblank).
  repeat split.
Qed.

(** C3. A submission with a non-empty name and a non-empty cuisine stores,
    under the submitted name, a row whose ingredients are the
    comma-separated pieces of the ingredient text, each without its
    surrounding whitespace, the other fields as submitted; the row is read
    back by that name.  In particular name "X", cuisine "Y", ingredients
    "a, b ,c", prep time 10, difficulty "Easy", rating 4.0 yields, on every
    table, a row read back under "X" with ingredients exactly
    ["a"; "b"; "c"] and those field values. *)
Theorem add_recipe_stores_tokens :
  (forall (w : form_widgets) (wd : world image) df,
      submitted w = true -> name w <> "" -> cuisine w <> "" ->
      recipes (session wd) = Some df ->
      exists df' pieces tokens,
        handle_add_recipe w wd
        = (Ok tt, {| session := {| recipes := Some df' |};
                     page := added_page (page wd) |})
        /\ Py.join "," pieces = ingredients w
        /\ Forall (fun piece => Py.contains "," piece = false) pieces
        /\ Forall2 trims_to pieces tokens
        /\ pd.loc (name w) df'
           = Some (mkRecipe (cuisine w) tokens (prep_time w)
                            (form_difficulty w) (rating w)))
  /\ (forall (wd : world image) df,
         recipes (session wd) = Some df ->
         exists df',
           handle_add_recipe form_X wd
           = (Ok tt, {| session := {| recipes := Some df' |};
                        page := added_page (page wd) |})
           /\ pd.loc "X" df'
              = Some (mkRecipe "Y" ["a"; "b"; "c"] 10 "Easy" Float.f4_0)).
Proof.
  split.
  - intros w wd df Hs Hn Hc Hdf.
    exists (pd.set_loc (name w) (new_recipe w) df),
      (Py.split "," (ingredients w)),
      (map Py.strip (Py.split "," (ingredients w))).
    split; [apply handle_add_recipe_accepts; assumption|].
    split; [apply join_split|].
    split; [apply split_tokens_free|].
    split; [apply map_strip_trims|].
    apply loc_set_loc_same.
  - intros wd df Hdf.
    exists (pd.set_loc "X" (new_recipe form_X) df). split.
    + apply (@handle_add_recipe_accepts image form_X wd df);
        try reflexivity; try discriminate; exact Hdf.
    + apply loc_set_loc_same.
Qed.

(** C4. Adding a recipe under the name of an existing row overwrites that
    row: the table keeps its number of rows and its labels in their
    order, the labels stay pairwise distinct, the row under the name
    carries the submitted values, and every other row is unchanged. *)
Theorem add_recipe_overwrites (w : form_widgets) (wd : world image) df :
  submitted w = true -> name w <> "" -> cuisine w <> "" ->
  recipes (session wd) = Some df ->
  NoDup (pd.index df) ->
  In (name w) (pd.index df) ->
  exists df',
    handle_add_recipe w wd
    = (Ok tt, {| session := {| recipes := Some df' |};
                 page := added_page (page wd) |})
    /\ List.length df' = List.length df
    /\ pd.index df' = pd.index df
    /\ NoDup (pd.index df')
    /\ pd.loc (name w) df'
       = Some (mkRecipe (cuisine w)
                        (map Py.strip (Py.split "," (ingredients w)))
                        (prep_time w) (form_difficulty w) (rating w))
    /\ (forall other, other <> name w -> pd.loc other df' = pd.loc other df).
Proof.
  intros Hs Hn Hc Hdf Hnd Hin.
  apply has_label_In in Hin.
  exists (pd.set_loc (name w) (new_recipe w) df).
  split; [apply handle_add_recipe_accepts; assumption|].
  split; [rewrite set_loc_length, Hin; reflexivity|].
  assert (Hidx : pd.index (pd.set_loc (name w) (new_recipe w) df)
                 = pd.index df)
    by (rewrite set_loc_index, Hin; reflexivity).
  split; [exact Hidx|]. split; [rewrite Hidx; exact Hnd|].
  split; [apply loc_set_loc_same|].
  intros other Hne. apply loc_set_loc_other. exact Hne.
Qed.

(** C9. A successful submission whose ingredient text is the empty string
    stores the one-element list [""]: splitting the empty string on commas
    yields one empty piece, not no piece. *)
Theorem add_recipe_empty_ingredients (w : form_widgets) (wd : world image)
    df :
  submitted w = true -> name w <> "" -> cuisine w <> "" ->
  ingredients w = "" ->
  recipes (session wd) = Some df ->
  exists df',
    handle_add_recipe w wd
    = (Ok tt, {| session := {| recipes := Some df' |};
                 page := added_page (page wd) |})
    /\ option_map Ingredients (pd.loc (name w) df') = Some [""]
    /\ option_map Ingredients (pd.loc (name w) df') <> Some [].
Proof.
  intros Hs Hn Hc Hi Hdf.
  exists (pd.set_loc (name w) (new_recipe w) df).
  split; [apply handle_add_recipe_accepts; assumption|].
  rewrite loc_set_loc_same. unfold new_recipe. rewrite Hi. simpl.
  split; [reflexivity|discriminate].
Qed.

End AddRecipe.

(** ** Runs of the script *)

Lemma seed_table_ok : table_ok seed_recipes = true.
Proof. vm_compute. reflexivity. Qed.

Lemma form_ok_recipe_ok w :
  form_widgets_ok w = true -> recipe_ok (new_recipe w) = true.
Proof.
  unfold form_widgets_ok, recipe_ok, number_input_returns, selectbox_returns,
    slider_float_returns. simpl.
  rewrite !andb_true_iff, !Z.leb_le, Z.ltb_lt.
  intros [[[Hlo Hhi] Hd] [Hr1 Hr2]]. repeat split; try assumption. lia.
Qed.

Lemma set_loc_table_ok label values df :
  recipe_ok values = true -> table_ok df = true ->
  table_ok (pd.set_loc label values df) = true.
Proof.
  unfold table_ok, pd.set_loc. intros Hv Hdf.
  destruct (pd.has_label label df).
  - rewrite forallb_forall in *. intros row Hin.
    apply in_map_iff in Hin. destruct Hin as [row0 [<- Hin0]].
    destruct (String.eqb (fst row0) label); simpl; auto.
  - rewrite forallb_app, Hdf. simpl. rewrite Hv. reflexivity.
Qed.

Lemma table_at_start_size s :
  store_size s <= List.length (table_at_start s).
Proof.
  unfold store_size, table_at_start. destruct (recipes s); simpl; lia.
Qed.

Lemma table_at_start_labels s : incl (labels s) (pd.index (table_at_start s)).
Proof.
  unfold labels, table_at_start.
  destruct (recipes s); [apply incl_refl|apply incl_nil_l].
Qed.

Lemma table_after_size s i :
  List.length (table_at_start s) <= List.length (table_after s i).
Proof.
  destruct i as [w|w|w|]; simpl; try lia.
  destruct (accepted w); [|lia].
  rewrite set_loc_length. destruct (pd.has_label _ _); lia.
Qed.

Lemma table_after_labels s i :
  incl (pd.index (table_at_start s)) (pd.index (table_after s i)).
Proof.
  destruct i as [w|w|w|]; simpl; try apply incl_refl.
  destruct (accepted w); [|apply incl_refl].
  rewrite set_loc_index.
  destruct (pd.has_label _ _); [apply incl_refl|apply incl_appl, incl_refl].
Qed.

Lemma table_after_ok s i :
  widgets_ok i = true -> table_ok (table_at_start s) = true ->
  table_ok (table_after s i) = true.
Proof.
  destruct i as [w|w|w|]; simpl; trivial.
  intros Hw Hs. destruct (accepted w); [|exact Hs].
  apply set_loc_table_ok; [apply form_ok_recipe_ok|]; assumption.
Qed.

Lemma table_after_nodup s i :
  NoDup (pd.index (table_at_start s)) -> NoDup (pd.index (table_after s i)).
Proof.
  intros Hnd. destruct i as [w|w|w|]; simpl; trivial.
  destruct (accepted w); [|exact Hnd].
  rewrite set_loc_index.
  destruct (pd.has_label (name w) (table_at_start s)) eqn:Hl; [exact Hnd|].
  apply NoDup_app; [exact Hnd|repeat constructor; simpl; tauto|].
  intros label Hin [<-|[]].
  apply has_label_In in Hin. congruence.
Qed.

Lemma ingredient_text_two_rows df :
  2 <= List.length df -> ingredient_text df <> "".
Proof.
  destruct df as [|a [|b df]]; simpl; try lia. intros _.
  unfold ingredient_text. simpl map. rewrite join_cons by discriminate.
  destruct (Py.join " " (Ingredients (snd a))); discriminate.
Qed.

Section Runs.

Variable image : Type.
Variable generate : string -> outcome image.

Lemma after_all_cons s i runs :
  session_after_all generate s (i :: runs)
  = session_after_all generate (session_after generate s i) runs.
Proof. reflexivity. Qed.

(** A property of the table that the seed table has and that every run
    hands on holds in every session the script can leave. *)
Lemma after_all_invariant (Inv : DataFrame -> Prop)
    (ok : interaction -> bool) :
  (forall s i, ok i = true ->
     Inv (table_at_start s) -> Inv (table_after s i)) ->
  forall runs s df,
    forallb ok runs = true ->
    Inv (table_at_start s) ->
    recipes (session_after_all generate s runs) = Some df -> Inv df.
Proof.
  intros Hstep. induction runs as [|i runs IH]; intros s df Hok Hs Hdf.
  - simpl in Hdf. unfold table_at_start in Hs. rewrite Hdf in Hs. exact Hs.
  - simpl in Hok. apply andb_true_iff in Hok. destruct Hok as [Hi Hok].
    rewrite after_all_cons in Hdf.
    apply (IH (session_after generate s i) df Hok); [|exact Hdf].
    rewrite session_after_spec. simpl. apply Hstep; assumption.
Qed.

Lemma after_size s i :
  store_size s <= store_size (session_after generate s i).
Proof.
  rewrite session_after_spec.
  change (store_size {| recipes := Some (table_after s i) |})
    with (List.length (table_after s i)).
  pose proof (table_at_start_size s). pose proof (table_after_size s i). lia.
Qed.

Lemma after_labels s i :
  incl (labels s) (labels (session_after generate s i)).
Proof.
  rewrite session_after_spec. simpl.
  eapply incl_tran; [apply table_at_start_labels|apply table_after_labels].
Qed.

Lemma after_all_size s runs :
  store_size s <= store_size (session_after_all generate s runs).
Proof.
  revert s. induction runs as [|i runs IH]; intros s.
  - apply Nat.le_refl.
  - rewrite after_all_cons.
    apply Nat.le_trans with (store_size (session_after generate s i));
      [apply after_size|apply IH].
Qed.

Lemma after_all_labels s runs :
  incl (labels s) (labels (session_after_all generate s runs)).
Proof.
  revert s. induction runs as [|i runs IH]; intros s.
  - apply incl_refl.
  - rewrite after_all_cons.
    eapply incl_tran; [apply after_labels|apply IH].
Qed.

(** The labels of every table the script can leave are pairwise distinct. *)
Lemma reachable_labels_nodup runs df :
  recipes (session_after_all generate new_session runs) = Some df ->
  NoDup (pd.index df).
Proof.
  apply (@after_all_invariant (fun df => NoDup (pd.index df)) (fun _ => true)).
  - intros s i _. apply table_after_nodup.
  - clear. induction runs; simpl; auto.
  - vm_compute. repeat constructor; simpl; intuition discriminate.
Qed.

(** C6. The table is mutated by the add-recipe page only.  The handlers
    of the recipe explorer, the smart search and the analytics page hand
    the session on as they received it, whatever they render and whether
    or not they raise; a run of the script on any other page than the form
    leaves a session that has a table exactly as it was; and over every
    run, hence every sequence of runs, each label stays in the table and
    the number of rows does not decrease. *)
Theorem store_changed_by_add_only :
  ((forall w, frames (handle_recipe_explorer generate w))
   /\ (forall w, frames (@handle_smart_search image w))
   /\ frames (handle_analytics generate))
  /\ (forall s df i,
         recipes s = Some df -> (forall w, i <> Add_Recipe w) ->
         session_after generate s i = s)
  /\ (forall s i,
         incl (labels s) (labels (session_after generate s i))
         /\ store_size s <= store_size (session_after generate s i))
  /\ (forall s runs,
         incl (labels s) (labels (session_after_all generate s runs))
         /\ store_size s <= store_size (session_after_all generate s runs)).
Proof.
  split; [|split; [|split]].
  - split; [|split].
    + apply frames_recipe_explorer.
    + apply frames_smart_search.
    + apply frames_analytics.
  - intros s df i Hdf Hi. rewrite session_after_spec.
    assert (Hstart : table_at_start s = df)
      by (unfold table_at_start; rewrite Hdf; reflexivity).
    destruct s as [tbl]. simpl in Hdf. subst tbl.
    destruct i as [w|w|w|]; simpl table_after; rewrite ?Hstart;
      try reflexivity.
    exfalso. apply (Hi w). reflexivity.
  - intros s i. split; [apply after_labels|apply after_size].
  - intros s runs. split; [apply after_all_labels|apply after_all_size].
Qed.

(** C8. Every recipe the table ever holds meets the data-model invariant:
    the three seed recipes do, and after any sequence of runs whose widgets
    returned values within their declared ranges every row has a positive
    prep time, a difficulty among Easy, Medium and Hard, and a rating from
    1.0 to 5.0 inclusive. *)
Theorem stored_recipes_ok (runs : list interaction) (df : DataFrame) :
  forallb widgets_ok runs = true ->
  recipes (session_after_all generate new_session runs) = Some df ->
  Forall (fun row =>
            (0 < Prep_Time (snd row))%Z
            /\ In (Difficulty (snd row)) ["Easy"; "Medium"; "Hard"]
            /\ Float.le Float.f1_0 (Rating (snd row)) = true
            /\ Float.le (Rating (snd row)) Float.f5_0 = true) df.
Proof.
  intros Hok Hdf.
  assert (Htable : table_ok df = true).
  { revert Hdf.
    apply (@after_all_invariant (fun df => table_ok df = true) widgets_ok);
      [intros s i; apply table_after_ok|exact Hok|apply seed_table_ok]. }
  unfold table_ok in Htable. rewrite forallb_forall in Htable.
  apply Forall_forall. intros row Hin. specialize (Htable row Hin).
  unfold recipe_ok in Htable.
  rewrite !andb_true_iff, Z.ltb_lt, existsb_eqb_In in Htable.
  tauto.
Qed.

(** Every table the script can leave has the three seed labels, hence at
    least three rows. *)
Lemma reachable_three_rows runs df :
  recipes (session_after_all generate new_session runs) = Some df ->
  3 <= List.length df.
Proof.
  intros Hdf.
  destruct runs as [|i runs]; [discriminate|].
  rewrite after_all_cons in Hdf.
  pose proof (after_all_size (session_after generate new_session i) runs)
    as Hi.
  unfold store_size at 2 in Hi. rewrite Hdf in Hi.
  rewrite session_after_spec in Hi.
  change (store_size {| recipes := Some (table_after new_session i) |})
    with (List.length (table_after new_session i)) in Hi.
  pose proof (table_after_size new_session i) as Hstart.
  change (List.length (table_at_start new_session)) with 3 in Hstart. lia.
Qed.

(** C5 as the program has it.  Word-cloud generation has no guard of its
    own for an empty ingredient set: [create_ingredient_cloud] hands the
    joined ingredient text to the word-cloud generator and returns its
    outcome, so with a generator that raises on a text without words the
    error comes out, over the empty table and over any table whose text is
    blank, and no placeholder is rendered.  The tables the script itself
    leaves in a session have at least three rows, so their joined text is
    never the empty string. *)
Theorem word_cloud_unguarded :
  wordcloud_contract generate ->
  (forall df,
      create_ingredient_cloud generate df = generate (ingredient_text df))
  /\ (forall df,
         Py.all_space (ingredient_text df) = true ->
         create_ingredient_cloud generate df = Raise ValueError)
  /\ (forall runs df,
         recipes (session_after_all generate new_session runs) = Some df ->
         3 <= List.length df /\ ingredient_text df <> "").
Proof.
  intros Hgen. split; [reflexivity|]. split.
  - intros df Hblank. apply Hgen. exact Hblank.
  - intros runs df Hdf.
    pose proof (reachable_three_rows runs Hdf) as H3.
    split; [exact H3|]. apply ingredient_text_two_rows. lia.
Qed.

(** Blanking the ingredients of the three seed rows through the form
    leaves a table whose joined text is two spaces; the recipe explorer
    then raises when it comes to the cloud. *)
Lemma blank_overwrites_raise :
  wordcloud_contract generate ->
  fst (run generate
         (session_after_all generate new_session
            [Add_Recipe (form_no_ingredients "Spaghetti Carbonara");
             Add_Recipe (form_no_ingredients "Chicken Tikka Masala");
             Add_Recipe (form_no_ingredients "Avocado Toast")])
         (Recipe_Explorer (mkExplorer "None")))
  = Raise ValueError.
Proof.
  intros Hgen. cbv.
  rewrite (Hgen "  " eq_refl). reflexivity.
Qed.

End Runs.

(** ** Names are taken as typed *)

Lemma added_not_rejected {image} (before : list (element image)) :
  added_page before <> rejected_page before.
Proof.
  unfold added_page, rejected_page. intros H.
  apply app_inv_head in H. discriminate.
Qed.

(** C10. Validation of the add-recipe form tests only that the name and
    the cuisine are non-empty strings, nothing is trimmed: a submission is
    accepted exactly when both are non-empty, and the row is then stored
    under the name string as typed, a new label being appended as it
    stands and rows under every other label left alone.  So the
    whitespace-only name " " passes and becomes a label, and "X" and " X",
    equal once stripped, are two labels with their own rows. *)
Theorem add_recipe_name_untrimmed :
  (forall image (w : form_widgets) (wd : world image) df,
      submitted w = true -> recipes (session wd) = Some df ->
      (page (snd (handle_add_recipe w wd)) = added_page (page wd)
       <-> name w <> "" /\ cuisine w <> "")
      /\ (name w <> "" -> cuisine w <> "" ->
          exists df',
            recipes (session (snd (handle_add_recipe w wd))) = Some df'
            /\ pd.index df'
               = (if pd.has_label (name w) df then pd.index df
                  else pd.index df ++ [name w])
            /\ pd.loc (name w) df' = Some (new_recipe w)
            /\ (forall other,
                   other <> name w -> pd.loc other df' = pd.loc other df)))
  /\ (forall image (wd : world image) df,
         recipes (session wd) = Some df -> ~ In " " (pd.index df) ->
         exists df',
           handle_add_recipe form_space_name wd
           = (Ok tt, {| session := {| recipes := Some df' |};
                        page := added_page (page wd) |})
           /\ pd.index df' = pd.index df ++ [" "])
  /\ (Py.strip " X" = Py.strip "X"
      /\ exists df,
           recipes (session_after_all text_cloud new_session
                      [Add_Recipe form_X; Add_Recipe form_space_X])
           = Some df
           /\ pd.index df = pd.index seed_recipes ++ ["X"; " X"]
           /\ pd.loc "X" df = Some recipe_X
           /\ pd.loc " X" df = Some (mkRecipe "Z" ["d"] 30 "Hard" Float.f3_0)).
Proof.
  split; [|split].
  - intros image w wd df Hs Hdf. split.
    + split.
      * intros Hpage.
        destruct (string_dec (name w) "") as [Hn|Hn];
          [|destruct (string_dec (cuisine w) "") as [Hc|Hc]];
          [| |split; assumption]; exfalso.
        -- rewrite (handle_add_recipe_rejects w wd Hs (or_introl Hn))
             in Hpage.
           simpl in Hpage. symmetry in Hpage.
           exact (added_not_rejected _ Hpage).
        -- rewrite (handle_add_recipe_rejects w wd Hs (or_intror Hc))
             in Hpage.
           simpl in Hpage. symmetry in Hpage.
           exact (added_not_rejected _ Hpage).
      * intros [Hn Hc].
        rewrite (handle_add_recipe_accepts w wd Hs Hn Hc Hdf). reflexivity.
    + intros Hn Hc.
      exists (pd.set_loc (name w) (new_recipe w) df).
      rewrite (handle_add_recipe_accepts w wd Hs Hn Hc Hdf). simpl.
      split; [reflexivity|]. split; [apply set_loc_index|].
      split; [apply loc_set_loc_same|].
      intros other Hne. apply loc_set_loc_other. exact Hne.
  - intros image wd df Hdf Hfresh.
    exists (pd.set_loc " " (new_recipe form_space_name) df). split.
    + apply (@handle_add_recipe_accepts image form_space_name wd df);
        try reflexivity; try discriminate; exact Hdf.
    + rewrite set_loc_index.
      destruct (pd.has_label " " df) eqn:Hl; [|reflexivity].
      apply has_label_In in Hl. contradiction.
  - split; [reflexivity|].
    eexists. split; [vm_compute; reflexivity|].
    repeat split.
Qed.

(** ** The word cloud over an empty table *)

Lemma text_cloud_contract : wordcloud_contract text_cloud.
Proof.
  intros text Hblank. unfold text_cloud. rewrite Hblank. reflexivity.
Qed.

(** C5 as stated fails.  The empty table has the empty ingredient text,
    and with any generator that raises on a text without words
    [create_ingredient_cloud] raises [ValueError] there: no image, empty or
    placeholder, is returned. *)
Lemma word_cloud_empty_raises :
  ingredient_text [] = ""
  /\ (forall image (generate : string -> outcome image),
         wordcloud_contract generate ->
         create_ingredient_cloud generate [] = Raise ValueError
         /\ forall img, create_ingredient_cloud generate [] <> Ok img)
  /\ create_ingredient_cloud text_cloud [] = Raise ValueError.
Proof.
  split; [reflexivity|]. split; [|reflexivity].
  intros image generate Hgen.
  assert (H : create_ingredient_cloud generate [] = Raise ValueError)
    by (apply Hgen; reflexivity).
  split; [exact H|]. intros img. rewrite H. discriminate.
Qed.

(** ** Concrete runs *)

Lemma seed_index_nodup : NoDup (pd.index seed_recipes).
Proof.
  repeat constructor; simpl; intuition discriminate.
Qed.

(** The seed row with prep time 20 and rating 4.5 is selected at ceiling
    20 and floor 4.5. *)
Lemma smart_search_exact_witness :
  In carbonara_row
     (smart_search_filter seed_recipes 20 Float.f4_5 ["Medium"]).
Proof.
  apply (proj2 (proj2 (smart_search_exact seed_recipes 20 Float.f4_5
                         ["Medium"]))).
  - simpl. left. reflexivity.
  - simpl. left. reflexivity.
  - right. split; [simpl; lia|reflexivity].
Defined.

Lemma add_recipe_blank_rejected_witness :
  submitted form_blank_name = true
  /\ name form_blank_name = ""
  /\ session (snd (handle_add_recipe form_blank_name seed_world))
     = seed_session.
Proof.
  split; [reflexivity|]. split; [reflexivity|].
  apply (add_recipe_blank_rejected form_blank_name seed_world eq_refl
           (or_introl eq_refl)).
Defined.

Lemma add_recipe_stores_tokens_witness :
  exists df',
    handle_add_recipe form_X seed_world
    = (Ok tt, {| session := {| recipes := Some df' |};
                 page := added_page [] |})
    /\ pd.loc "X" df' = Some recipe_X.
Proof.
  apply (proj2 (@add_recipe_stores_tokens string) seed_world seed_recipes).
  reflexivity.
Defined.

Lemma add_recipe_overwrites_witness :
  exists df',
    handle_add_recipe form_carbonara seed_world
    = (Ok tt, {| session := {| recipes := Some df' |};
                 page := added_page [] |})
    /\ List.length df' = 3
    /\ pd.index df' = pd.index seed_recipes
    /\ NoDup (pd.index df')
    /\ pd.loc "Spaghetti Carbonara" df'
       = Some (mkRecipe "Roman" ["Guanciale"; "Eggs"] 25 "Hard" Float.f5_0)
    /\ (forall other,
           other <> "Spaghetti Carbonara" ->
           pd.loc other df' = pd.loc other seed_recipes).
Proof.
  apply (@add_recipe_overwrites string form_carbonara seed_world seed_recipes).
  - reflexivity.
  - discriminate.
  - discriminate.
  - reflexivity.
  - exact seed_index_nodup.
  - simpl. left. reflexivity.
Defined.

Lemma add_recipe_empty_ingredients_witness :
  exists df',
    handle_add_recipe (form_no_ingredients "Avocado Toast") seed_world
    = (Ok tt, {| session := {| recipes := Some df' |};
                 page := added_page [] |})
    /\ option_map Ingredients (pd.loc "Avocado Toast" df') = Some [""]
    /\ option_map Ingredients (pd.loc "Avocado Toast" df') <> Some [].
Proof.
  apply (@add_recipe_empty_ingredients string
           (form_no_ingredients "Avocado Toast") seed_world seed_recipes).
  - reflexivity.
  - discriminate.
  - discriminate.
  - reflexivity.
  - reflexivity.
Defined.

Lemma add_recipe_name_untrimmed_witness :
  exists df',
    handle_add_recipe form_space_name seed_world
    = (Ok tt, {| session := {| recipes := Some df' |};
                 page := added_page [] |})
    /\ pd.index df' = pd.index seed_recipes ++ [" "].
Proof.
  apply (proj1 (proj2 add_recipe_name_untrimmed) string seed_world
           seed_recipes).
  - reflexivity.
  - simpl. intuition discriminate.
Defined.

Lemma store_changed_by_add_only_witness :
  session_after text_cloud seed_session (Smart_Search search_default)
  = seed_session.
Proof.
  apply (proj1 (proj2 (store_changed_by_add_only text_cloud))
           seed_session seed_recipes (Smart_Search search_default)).
  - reflexivity.
  - discriminate.
Defined.

Lemma stored_recipes_ok_witness :
  Forall (fun row =>
            (0 < Prep_Time (snd row))%Z
            /\ In (Difficulty (snd row)) ["Easy"; "Medium"; "Hard"]
            /\ Float.le Float.f1_0 (Rating (snd row)) = true
            /\ Float.le (Rating (snd row)) Float.f5_0 = true)
         (seed_recipes ++ [("X", recipe_X)]).
Proof.
  apply (@stored_recipes_ok string text_cloud
           [Smart_Search search_default; Add_Recipe form_X]).
  - vm_compute. reflexivity.
  - vm_compute. reflexivity.
Defined.

Lemma word_cloud_unguarded_witness :
  wordcloud_contract text_cloud
  /\ create_ingredient_cloud text_cloud
       [("Blank", mkRecipe "None" [""] 1 "Easy" Float.f1_0)]
     = Raise ValueError.
Proof.
  split; [exact text_cloud_contract|].
  apply (proj1 (proj2 (word_cloud_unguarded text_cloud_contract))).
  reflexivity.
Defined.

(** * Further properties of the pages *)

Lemma getitem_mask_filter {A} (col : recipe -> A) (test : A -> bool) df :
  pd.getitem_mask df (map test (pd.column col df))
  = filter (fun row => test (col (snd row))) df.
Proof.
  unfold pd.column. induction df as [|row df IH]; simpl; [reflexivity|].
  rewrite IH. reflexivity.
Qed.

Lemma cards_on_app {image} (p q : list (element image)) :
  cards_on (p ++ q) = cards_on p ++ cards_on q.
Proof. unfold cards_on. apply flat_map_app. Qed.

Lemma cards_on_cards {image} rows : cards_on (@cards image rows) = rows.
Proof.
  unfold cards_on, cards. induction rows as [|[n d] rows IH]; simpl;
    [reflexivity|]. rewrite IH. reflexivity.
Qed.

Lemma cards_on_cloud {image} (r : outcome image) :
  cards_on (cloud_elements r) = [].
Proof. destruct r; reflexivity. Qed.

Section Pages.

Variable image : Type.
Variable generate : string -> outcome image.

Lemma render_cards_spec rows (wd : world image) :
  render_cards rows wd
  = (Ok tt, {| session := session wd; page := page wd ++ cards rows |}).
Proof.
  unfold render_cards. revert wd.
  induction rows as [|row rows IH]; intros wd; simpl.
  - unfold ret. rewrite app_nil_r. destruct wd; reflexivity.
  - unfold bind, emit at 1. simpl. rewrite IH. simpl.
    rewrite <- app_assoc. reflexivity.
Qed.

Lemma handle_recipe_explorer_spec w (wd : world image) df :
  recipes (session wd) = Some df ->
  handle_recipe_explorer generate w wd
  = (cloud_result (generate (ingredient_text df)),
     {| session := session wd;
        page := page wd
                ++ explorer_page (selected_cuisine w) df
                     (generate (ingredient_text df)) |}).
Proof.
  intros Hdf. unfold handle_recipe_explorer, explorer_page.
  unfold bind at 1. unfold emit at 1. cbv beta iota.
  unfold bind at 1. unfold get_recipes. simpl session. rewrite Hdf.
  cbv beta iota.
  unfold pd.eq_scalar.
  rewrite (getitem_mask_filter Cuisine
             (fun x => String.eqb x (selected_cuisine w))).
  fold (with_cuisine (selected_cuisine w) df).
  unfold bind at 1. rewrite render_cards_spec. cbv beta iota.
  unfold bind at 1. unfold emit at 1. cbv beta iota.
  unfold bind, lift, emit, create_ingredient_cloud. simpl.
  destruct (generate (ingredient_text df)) as [img|e]; simpl;
    rewrite <- !app_assoc; simpl; reflexivity.
Qed.

Lemma handle_smart_search_spec w (wd : world image) df :
  recipes (session wd) = Some df ->
  handle_smart_search w wd
  = (Ok tt,
     {| session := session wd;
        page := page wd
                ++ search_page
                     (smart_search_filter df (max_time w) (min_rating w)
                        (difficulty w)) |}).
Proof.
  intros Hdf. unfold handle_smart_search, search_page.
  unfold bind at 1. unfold emit at 1. cbv beta iota.
  unfold bind at 1. unfold get_recipes. simpl session. rewrite Hdf.
  cbv beta iota.
  destruct (smart_search_filter df (max_time w) (min_rating w)
              (difficulty w)) as [|row rows] eqn:Hf.
  - simpl. unfold emit. simpl. rewrite <- app_assoc. reflexivity.
  - cbn [pd.empty negb].
    unfold bind at 1. unfold emit at 1. cbv beta iota.
    rewrite render_cards_spec. simpl.
    rewrite <- !app_assoc. reflexivity.
Qed.


Lemma run_unfold s i :
  run generate s i
  = match i with
    | Recipe_Explorer w => handle_recipe_explorer generate w
    | Smart_Search w => @handle_smart_search image w
    | Add_Recipe w => @handle_add_recipe image w
    | Food_Analytics => handle_analytics generate
    end {| session := {| recipes := Some (table_at_start s) |};
           page := [] |}.
Proof.
  unfold run, main, bind. rewrite initialize_data_spec. reflexivity.
Qed.

End Pages.

(** ** Distinct values and their counts *)

Lemma unique_In x series : In x (pd.unique series) <-> In x series.
Proof.
  induction series as [|y rest IH]; simpl; [tauto|].
  rewrite filter_In, IH, negb_true_iff, String.eqb_neq.
  destruct (string_dec y x) as [->|Hne]; [tauto|].
  split; [tauto|]. intros [H|H]; [tauto|]. right. split; congruence.
Qed.

Lemma unique_NoDup series : NoDup (pd.unique series).
Proof.
  induction series as [|y rest IH]; simpl; constructor.
  - rewrite filter_In, negb_true_iff, String.eqb_neq. tauto.
  - apply NoDup_filter. exact IH.
Qed.






(** ** Sorting the selector's options *)

Lemma insert_sorted_perm x items :
  Permutation (Py.insert_sorted x items) (x :: items).
Proof.
  induction items as [|y rest IH]; simpl; [apply Permutation_refl|].
  destruct (String.leb x y); [apply Permutation_refl|].
  eapply perm_trans; [apply perm_skip; exact IH|apply perm_swap].
Qed.

Lemma sorted_perm items : Permutation (Py.sorted items) items.
Proof.
  induction items as [|x rest IH]; simpl; [constructor|].
  eapply perm_trans; [apply insert_sorted_perm|apply perm_skip; exact IH].
Qed.

Lemma insert_sorted_ordered x items :
  Sorted (fun a b => String.leb a b = true) items ->
  Sorted (fun a b => String.leb a b = true) (Py.insert_sorted x items).
Proof.
  induction items as [|y rest IH]; intros Hs; simpl.
  - repeat constructor.
  - destruct (String.leb x y) eqn:Hxy.
    + constructor; [exact Hs|constructor; exact Hxy].
    + inversion Hs as [|? ? Hrest Hhd]; subst.
      constructor; [apply IH; exact Hrest|].
      assert (Hyx : String.leb y x = true)
        by (destruct (String.leb_total x y); congruence).
      destruct rest as [|z rest']; simpl; [constructor; exact Hyx|].
      destruct (String.leb x z); constructor; [exact Hyx|].
      inversion Hhd; assumption.
Qed.

Lemma sorted_ordered items :
  Sorted (fun a b => String.leb a b = true) (Py.sorted items).
Proof.
  induction items as [|x rest IH]; simpl; [constructor|].
  apply insert_sorted_ordered. exact IH.
Qed.

Lemma with_cuisine_In c df row :
  In row (with_cuisine c df) <-> In row df /\ Cuisine (snd row) = c.
Proof.
  unfold with_cuisine. rewrite filter_In, String.eqb_eq. tauto.
Qed.

Lemma column_In {A} (col : recipe -> A) df x :
  In x (pd.column col df) <-> exists row, In row df /\ col (snd row) = x.
Proof.
  unfold pd.column. rewrite in_map_iff. split; intros [row [H1 H2]];
    exists row; tauto.
Qed.

Lemma cuisine_options_In c df :
  In c (cuisine_options df)
  <-> exists row, In row df /\ Cuisine (snd row) = c.
Proof.
  unfold cuisine_options.
  rewrite <- column_In, <- (unique_In c (pd.column Cuisine df)). split.
  - apply Permutation_in, sorted_perm.
  - apply Permutation_in, Permutation_sym, sorted_perm.
Qed.

Section PageProperties.

Variable image : Type.
Variable generate : string -> outcome image.

(** X1. [initialize_data] creates the table once: on a session without a
    table it installs the three seed rows, on a session with a table it
    returns the world exactly as it found it, it writes nothing on the page
    and never raises, and calling it again changes nothing more. *)
Theorem initialize_data_once (wd : world image) :
  fst (initialize_data wd) = Ok tt
  /\ page (snd (initialize_data wd)) = page wd
  /\ (recipes (session wd) = None ->
      recipes (session (snd (initialize_data wd))) = Some seed_recipes)
  /\ (forall df, recipes (session wd) = Some df ->
                 snd (initialize_data wd) = wd)
  /\ initialize_data (snd (initialize_data wd))
     = (Ok tt, snd (initialize_data wd)).
Proof.
  rewrite initialize_data_spec. simpl.
  split; [reflexivity|]. split; [reflexivity|]. split; [|split].
  - intros Hnone. unfold table_at_start. rewrite Hnone. reflexivity.
  - intros df Hdf. unfold table_at_start. rewrite Hdf.
    destruct wd as [[tbl] pg]. simpl in *. subst tbl. reflexivity.
  - rewrite initialize_data_spec. reflexivity.
Qed.


(** X3. The recipe explorer shows one card for each row of the table whose
    cuisine equals the selected one, in table order, and no other card,
    whether or not the cloud below them can be drawn; the page is the
    explorer header, those cards, the cloud header and, when the generator
    returns one, the image. *)
Theorem explorer_shows_selected (s : session_state) (w : explorer_widgets) :
  page (snd (run generate s (Recipe_Explorer w)))
  = explorer_page (selected_cuisine w) (table_at_start s)
      (generate (ingredient_text (table_at_start s)))
  /\ cards_on (page (snd (run generate s (Recipe_Explorer w))))
     = with_cuisine (selected_cuisine w) (table_at_start s)
  /\ (forall row,
         In row (cards_on (page (snd (run generate s (Recipe_Explorer w)))))
         <-> In row (table_at_start s)
             /\ Cuisine (snd row) = selected_cuisine w).
Proof.
  assert (Hpage : page (snd (run generate s (Recipe_Explorer w)))
                  = explorer_page (selected_cuisine w) (table_at_start s)
                      (generate (ingredient_text (table_at_start s)))).
  { rewrite run_unfold.
    erewrite handle_recipe_explorer_spec by reflexivity. reflexivity. }
  assert (Hcards : cards_on (page (snd (run generate s (Recipe_Explorer w))))
                   = with_cuisine (selected_cuisine w) (table_at_start s)).
  { rewrite Hpage. unfold explorer_page.
    rewrite !cards_on_app, cards_on_cards, cards_on_cloud. simpl.
    apply app_nil_r. }
  split; [exact Hpage|]. split; [exact Hcards|].
  intros row. rewrite Hcards. apply with_cuisine_In.
Qed.

(** X4. The options of the cuisine selector are exactly the cuisines
    present in the table, each once, in ascending order; every option
    selects at least one row, and on a non-empty table the selector's
    default, its first option, does. *)
Theorem cuisine_options_cover (df : DataFrame) :
  (forall c, In c (cuisine_options df)
             <-> exists row, In row df /\ Cuisine (snd row) = c)
  /\ NoDup (cuisine_options df)
  /\ Sorted (fun a b => String.leb a b = true) (cuisine_options df)
  /\ (forall c, In c (cuisine_options df) -> with_cuisine c df <> [])
  /\ (df <> [] ->
      exists c, default_cuisine df = Some c /\ with_cuisine c df <> []).
Proof.
  assert (Hsel : forall c, In c (cuisine_options df) ->
                           with_cuisine c df <> []).
  { intros c Hc. apply cuisine_options_In in Hc.
    destruct Hc as [row Hrow]. apply with_cuisine_In in Hrow.
    intros Hnil. rewrite Hnil in Hrow. exact Hrow. }
  split; [intros c; apply cuisine_options_In|].
  split.
  { unfold cuisine_options.
    apply (Permutation_NoDup (Permutation_sym (sorted_perm _))).
    apply unique_NoDup. }
  split; [apply sorted_ordered|]. split; [exact Hsel|].
  intros Hne. unfold default_cuisine.
  destruct (cuisine_options df) as [|c rest] eqn:Hopts.
  - exfalso. destruct df as [|row df']; [congruence|].
    assert (Hin : In (Cuisine (snd row)) (cuisine_options (row :: df')))
      by (apply cuisine_options_In; exists row; simpl; tauto).
    rewrite Hopts in Hin. exact Hin.
  - exists c. split; [reflexivity|]. apply Hsel. left. reflexivity.
Qed.

End PageProperties.

(** ** The order on floats *)

Ltac compare_cases :=
  repeat match goal with
  | H : context [Z.compare ?a ?b] |- _ => destruct (Z.compare_spec a b)
  | |- context [Z.compare ?a ?b] => destruct (Z.compare_spec a b)
  | H : context [Pos.compare_cont Eq ?a ?b] |- _ =>
      change (Pos.compare_cont Eq a b) with (Pos.compare a b) in *;
      destruct (Pos.compare_spec a b)
  | |- context [Pos.compare_cont Eq ?a ?b] =>
      change (Pos.compare_cont Eq a b) with (Pos.compare a b) in *;
      destruct (Pos.compare_spec a b)
  end.

Lemma float_le_trans x y z :
  Float.le x y = true -> Float.le y z = true -> Float.le x z = true.
Proof.
  unfold Float.le, SFleb, SFcompare.
  destruct x as [sx|sx| |sx mx ex], y as [sy|sy| |sy my ey],
    z as [sz|sz| |sz mz ez];
    repeat match goal with s : bool |- _ => destruct s end;
    simpl; try reflexivity; try discriminate;
    intros H1 H2;
    compare_cases; simpl in *; try reflexivity; try discriminate;
    try lia.
Qed.

(** ** More on the smart search *)

Lemma smart_search_In df P R D row :
  In row (smart_search_filter df P R D)
  <-> In row df /\ matches P R D (snd row) = true.
Proof. rewrite smart_search_filter_rows. apply filter_In. Qed.

Lemma set_loc_row label values df row :
  In row (pd.set_loc label values df) -> fst row = label ->
  snd row = values.
Proof.
  unfold pd.set_loc. destruct (pd.has_label label df) eqn:Hl.
  - intros Hin Hfst. apply in_map_iff in Hin.
    destruct Hin as [row0 [Heq Hin0]].
    destruct (String.eqb_spec (fst row0) label) as [_|Hne].
    + subst row. reflexivity.
    + subst row. contradiction.
  - intros Hin Hfst. apply in_app_or in Hin. destruct Hin as [Hin|[<-|[]]].
    + exfalso. assert (pd.has_label label df = true); [|congruence].
      apply has_label_In. subst label. apply in_map. exact Hin.
    + reflexivity.
Qed.

Section Search.

Variable image : Type.
Variable generate : string -> outcome image.

(** X5. The smart-search page always returns normally and shows, under
    its header, either the warning, exactly when no row passes the
    filters, or the number of rows found followed by one card for each of
    them in table order; the number shown is the number of cards and is
    at least one. *)
Theorem smart_search_page (s : session_state) (w : search_widgets) :
  let found :=
    smart_search_filter (table_at_start s) (max_time w) (min_rating w)
      (difficulty w) in
  let pg := page (snd (run generate s (Smart_Search w))) in
  fst (run generate s (Smart_Search w)) = Ok tt
  /\ pg = search_page found
  /\ cards_on pg = found
  /\ (In (Warning
            "No recipes match these criteria. Try adjusting your filters!")
         pg <-> found = [])
  /\ (forall n, In (Subheader_found n) pg ->
                n = List.length (cards_on pg) /\ 0 < n).
Proof.
  intros found pg.
  assert (Hrun : run generate s (Smart_Search w)
                 = (Ok tt, {| session :=
                                {| recipes := Some (table_at_start s) |};
                              page := search_page found |})).
  { rewrite run_unfold.
    erewrite handle_smart_search_spec by reflexivity. reflexivity. }
  assert (Hpg : pg = search_page found) by (unfold pg; rewrite Hrun;
                                            reflexivity).
  assert (Hcards : cards_on pg = found).
  { rewrite Hpg. unfold search_page. destruct found as [|row rows];
      [reflexivity|].
    change (cards_on (Header "Advanced Search"
                      :: Subheader_found (List.length (row :: rows))
                      :: cards (row :: rows)))
      with (cards_on (@cards image (row :: rows))).
    apply cards_on_cards. }
  split; [rewrite Hrun; reflexivity|]. split; [exact Hpg|].
  split; [exact Hcards|]. rewrite Hcards. rewrite Hpg. unfold search_page.
  split.
  - destruct found as [|row rows].
    + simpl. split; [reflexivity|]. intros _. right. left. reflexivity.
    + split; [|discriminate]. intros [H|[H|H]]; try discriminate.
      unfold cards in H. apply in_map_iff in H.
      destruct H as [? [H _]]. discriminate.
  - intros n Hn. destruct found as [|row rows].
    + destruct Hn as [H|[H|[]]]; discriminate.
    + destruct Hn as [H|[H|H]]; try discriminate.
      * injection H as <-. simpl. split; [reflexivity|lia].
      * unfold cards in H. apply in_map_iff in H.
        destruct H as [? [H _]]. discriminate.
Qed.

(** X6. Loosening the filters never loses a result: with a higher
    prep-time ceiling, a lower rating floor and more allowed difficulties,
    every row found before is found again. *)
Theorem smart_search_monotone (df : DataFrame) (P P' : Z)
    (R R' : Float.float) (D D' : list string) :
  (P <= P')%Z -> Float.le R' R = true -> incl D D' ->
  incl (smart_search_filter df P R D) (smart_search_filter df P' R' D').
Proof.
  intros HP HR HD row. rewrite !smart_search_In. unfold matches.
  rewrite !andb_true_iff, !Z.leb_le, !existsb_eqb_In.
  intros [Hin [[Hp Hr] Hd]]. repeat split.
  - exact Hin.
  - lia.
  - unfold Float.ge in *. eapply float_le_trans; eassumption.
  - apply HD. exact Hd.
Qed.

(** X7. The prep-time slider of the smart search stops at 120 minutes
    while the form takes prep times up to 240: a recipe stored with a prep
    time above 120 is never among the smart-search results, whatever the
    search widgets return. *)
Theorem slow_recipe_never_found (wf : form_widgets) (ws : search_widgets)
    (df : DataFrame) :
  search_widgets_ok ws = true ->
  (120 < prep_time wf)%Z ->
  ~ In (name wf)
       (pd.index
          (smart_search_filter (pd.set_loc (name wf) (new_recipe wf) df)
             (max_time ws) (min_rating ws) (difficulty ws))).
Proof.
  intros Hws Hslow Hin. unfold pd.index in Hin. apply in_map_iff in Hin.
  destruct Hin as [row [Hfst Hrow]]. apply smart_search_In in Hrow.
  destruct Hrow as [Hrow Hm].
  apply set_loc_row in Hrow; [|exact Hfst]. rewrite Hrow in Hm.
  unfold matches in Hm. simpl in Hm.
  apply andb_true_iff in Hm. destruct Hm as [Hm _].
  apply andb_true_iff in Hm. destruct Hm as [Hm _].
  apply Z.leb_le in Hm.
  unfold search_widgets_ok in Hws.
  apply andb_true_iff in Hws. destruct Hws as [Hws _].
  apply andb_true_iff in Hws. destruct Hws as [Hws _].
  unfold slider_int_returns in Hws.
  apply andb_true_iff in Hws. destruct Hws as [_ Hws].
  apply Z.leb_le in Hws. lia.
Qed.

(** X8. On every table the script can hold, the widest search the widgets
    allow (ceiling 120, floor 1.0, all three difficulties) finds exactly
    the rows with a prep time of at most 120 minutes: the rating and the
    difficulty filters exclude nothing there. *)
Theorem widest_search_finds (runs : list interaction) (df : DataFrame) :
  forallb widgets_ok runs = true ->
  recipes (session_after_all generate new_session runs) = Some df ->
  smart_search_filter df (max_time search_widest) (min_rating search_widest)
    (difficulty search_widest)
  = filter (fun row => (Prep_Time (snd row) <=? 120)%Z) df.
Proof.
  intros Hok Hdf.
  assert (Htable : table_ok df = true).
  { revert Hdf.
    apply (@after_all_invariant image generate
             (fun df => table_ok df = true) widgets_ok);
      [intros s i; apply table_after_ok|exact Hok|apply seed_table_ok]. }
  rewrite smart_search_filter_rows. apply filter_ext_in. intros row Hin.
  unfold table_ok in Htable. rewrite forallb_forall in Htable.
  specialize (Htable row Hin). unfold recipe_ok in Htable.
  rewrite !andb_true_iff in Htable.
  destruct Htable as [[_ Hd] [Hr _]].
  unfold matches, search_widest, Float.ge. simpl max_time.
  simpl min_rating. simpl difficulty.
  unfold Float.le in Hr. rewrite Hr.
  unfold difficulty_options in Hd. rewrite Hd.
  rewrite !andb_true_r. reflexivity.
Qed.


End Search.

(** ** Submissions in sequence *)

Lemma has_label_set_loc_other label other values df :
  other <> label ->
  pd.has_label other (pd.set_loc label values df) = pd.has_label other df.
Proof.
  intros Hne.
  destruct (pd.has_label other df) eqn:Hl.
  - apply has_label_In. rewrite set_loc_index.
    apply has_label_In in Hl.
    destruct (pd.has_label label df); [exact Hl|].
    apply in_or_app. left. exact Hl.
  - destruct (pd.has_label other (pd.set_loc label values df)) eqn:Hl';
      [|reflexivity].
    apply has_label_In in Hl'. rewrite set_loc_index in Hl'.
    assert (Hin : In other (pd.index df)).
    { destruct (pd.has_label label df); [exact Hl'|].
      apply in_app_or in Hl'. destruct Hl' as [H|[H|[]]];
        [exact H|congruence]. }
    apply has_label_In in Hin. congruence.
Qed.

Lemma has_label_set_loc_same label values df :
  pd.has_label label (pd.set_loc label values df) = true.
Proof.
  apply has_label_In. rewrite set_loc_index.
  destruct (pd.has_label label df) eqn:Hl.
  - apply has_label_In. exact Hl.
  - apply in_or_app. right. left. reflexivity.
Qed.

Lemma set_loc_absent_rows label values df :
  pd.has_label label df = false ->
  map (fun row => if String.eqb (fst row) label then (fst row, values)
                  else row) df = df.
Proof.
  unfold pd.has_label. induction df as [|row df IH]; simpl; [reflexivity|].
  intros H. apply orb_false_iff in H. destruct H as [Hrow Hdf].
  rewrite Hrow, IH by exact Hdf. reflexivity.
Qed.

(** Assigning twice under one label leaves what assigning the second
    values alone would. *)
Lemma set_loc_twice label v1 v2 df :
  pd.set_loc label v2 (pd.set_loc label v1 df) = pd.set_loc label v2 df.
Proof.
  unfold pd.set_loc at 1. rewrite has_label_set_loc_same.
  unfold pd.set_loc. destruct (pd.has_label label df) eqn:Hl.
  - rewrite map_map. apply map_ext. intros row.
    destruct (String.eqb (fst row) label) eqn:E; simpl; rewrite E;
      reflexivity.
  - rewrite map_app. simpl. rewrite String.eqb_refl.
    rewrite set_loc_absent_rows by exact Hl. reflexivity.
Qed.

Lemma index_prefix_set_loc label values df :
  exists rest, pd.index (pd.set_loc label values df) = pd.index df ++ rest.
Proof.
  rewrite set_loc_index. destruct (pd.has_label label df).
  - exists []. rewrite app_nil_r. reflexivity.
  - exists [label]. reflexivity.
Qed.

Lemma table_at_start_some df :
  table_at_start {| recipes := Some df |} = df.
Proof. reflexivity. Qed.

Section Submissions.

Variable image : Type.
Variable generate : string -> outcome image.

(** X10. An accepted submission under a name the table does not have
    appends one row at the end: the rows that were there stay as they
    were, in their places, and the new row comes last. *)
Theorem add_new_appends (s : session_state) (w : form_widgets) :
  accepted w = true ->
  ~ In (name w) (pd.index (table_at_start s)) ->
  recipes (session_after generate s (Add_Recipe w))
  = Some (table_at_start s ++ [(name w, new_recipe w)]).
Proof.
  intros Hacc Hfresh. rewrite session_after_spec. simpl. rewrite Hacc.
  unfold pd.set_loc.
  destruct (pd.has_label (name w) (table_at_start s)) eqn:Hl;
    [|reflexivity].
  apply has_label_In in Hl. contradiction.
Qed.

(** X11. Of two accepted submissions under the same name the later one
    wins: the session is the one the later submission alone would have
    left.  In particular submitting the same form twice is the same as
    submitting it once. *)
Theorem last_submission_wins (s : session_state) (w1 w2 : form_widgets) :
  accepted w1 = true -> accepted w2 = true -> name w1 = name w2 ->
  session_after generate (session_after generate s (Add_Recipe w1))
    (Add_Recipe w2)
  = session_after generate s (Add_Recipe w2).
Proof.
  intros H1 H2 Hname. rewrite !session_after_spec. f_equal. f_equal.
  simpl. rewrite H1, H2. unfold table_at_start at 1. simpl.
  rewrite Hname. apply set_loc_twice.
Qed.

(** X12. Two accepted submissions under different names do not interfere:
    in either order the table has the same number of rows and the same row
    under every label. *)
Theorem submissions_commute (s : session_state) (w1 w2 : form_widgets) :
  accepted w1 = true -> accepted w2 = true -> name w1 <> name w2 ->
  let s12 := session_after generate
               (session_after generate s (Add_Recipe w1)) (Add_Recipe w2) in
  let s21 := session_after generate
               (session_after generate s (Add_Recipe w2)) (Add_Recipe w1) in
  store_size s12 = store_size s21
  /\ (forall label,
         pd.loc label (table_at_start s12) = pd.loc label (table_at_start s21))
  /\ pd.loc (name w1) (table_at_start s12) = Some (new_recipe w1)
  /\ pd.loc (name w2) (table_at_start s12) = Some (new_recipe w2).
Proof.
  intros H1 H2 Hne s12 s21. unfold s12, s21.
  rewrite !session_after_spec. unfold store_size.
  cbn [recipes table_after]. rewrite H1, H2.
  rewrite !table_at_start_some.
  set (df := table_at_start s).
  assert (Hne' : name w2 <> name w1) by congruence.
  split; [|split; [|split]].
  - rewrite !set_loc_length.
    rewrite (has_label_set_loc_other _ _ Hne).
    rewrite (has_label_set_loc_other _ _ Hne').
    destruct (pd.has_label (name w1) df), (pd.has_label (name w2) df);
      reflexivity.
  - intros label.
    destruct (string_dec label (name w1)) as [->|Hl1].
    + rewrite (loc_set_loc_other _ _ Hne), !loc_set_loc_same. reflexivity.
    + destruct (string_dec label (name w2)) as [->|Hl2].
      * rewrite loc_set_loc_same, (loc_set_loc_other _ _ Hne'),
          loc_set_loc_same. reflexivity.
      * rewrite !loc_set_loc_other by assumption. reflexivity.
  - rewrite (loc_set_loc_other _ _ Hne). apply loc_set_loc_same.
  - apply loc_set_loc_same.
Qed.

(** X13. In every table the script can hold the labels are pairwise
    distinct and begin with the three seed labels in their original order:
    the seed rows can be overwritten but never removed, moved or
    duplicated. *)
Theorem labels_keep_seeds (runs : list interaction) (df : DataFrame) :
  recipes (session_after_all generate new_session runs) = Some df ->
  NoDup (pd.index df)
  /\ firstn 3 (pd.index df)
     = ["Spaghetti Carbonara"; "Chicken Tikka Masala"; "Avocado Toast"].
Proof.
  intros Hdf. split.
  - revert Hdf.
    apply (@after_all_invariant image generate
             (fun df => NoDup (pd.index df)) (fun _ => true)).
    + intros s i _. apply table_after_nodup.
    + clear. induction runs; simpl; auto.
    + vm_compute. repeat constructor; simpl; intuition discriminate.
  - assert (Hpre : exists rest, pd.index df = pd.index seed_recipes ++ rest).
    { revert Hdf.
      apply (@after_all_invariant image generate
               (fun df => exists rest,
                    pd.index df = pd.index seed_recipes ++ rest)
               (fun _ => true)).
      - intros s i _ [rest Hrest].
        destruct i as [w|w|w|]; simpl; try (exists rest; exact Hrest).
        destruct (accepted w); [|exists rest; exact Hrest].
        destruct (index_prefix_set_loc (name w) (new_recipe w)
                    (table_at_start s)) as [more Hmore].
        exists (rest ++ more). rewrite Hmore, Hrest, <- app_assoc.
        reflexivity.
      - clear. induction runs; simpl; auto.
      - exists []. rewrite app_nil_r. reflexivity. }
    destruct Hpre as [rest ->]. reflexivity.
Qed.

End Submissions.

(** ** Stored ingredients and the card's ingredients line *)

Lemma lstrip_contains c s :
  Py.contains c s = false -> Py.contains c (Py.lstrip s) = false.
Proof.
  induction s as [|d rest IH]; simpl; [trivial|].
  intros H. apply orb_false_iff in H. destruct H as [Hd Hrest].
  destruct (Py.isspace d); [apply IH; exact Hrest|].
  simpl. rewrite Hd, Hrest. reflexivity.
Qed.

Lemma rstrip_contains c s :
  Py.contains c s = false -> Py.contains c (Py.rstrip s) = false.
Proof.
  induction s as [|d rest IH]; simpl; [trivial|].
  intros H. apply orb_false_iff in H. destruct H as [Hd Hrest].
  specialize (IH Hrest).
  destruct (Py.rstrip rest) as [|e kept].
  - destruct (Py.isspace d); simpl; [reflexivity|].
    rewrite Hd. reflexivity.
  - simpl in *. rewrite Hd. exact IH.
Qed.

Lemma rstrip_fixed s :
  match Py.last_char s with
  | Some b => Py.isspace b = false
  | None => True
  end ->
  Py.rstrip s = s.
Proof.
  induction s as [|c rest IH]; simpl; [trivial|].
  destruct rest as [|d rest'].
  - simpl. intros Hc. rewrite Hc. reflexivity.
  - intros Hlast. rewrite (IH Hlast). reflexivity.
Qed.

Lemma last_char_cons c s : Py.last_char (String c s) <> None.
Proof.
  revert c. induction s as [|d rest IH]; intros c; simpl; [discriminate|].
  apply IH.
Qed.

(** Stripping a trimmed string changes nothing. *)
Lemma strip_trimmed s : Py.trimmed s = true -> Py.strip s = s.
Proof.
  unfold Py.trimmed, Py.strip. destruct s as [|c rest]; [reflexivity|].
  pose proof (last_char_cons c rest) as Hlast.
  cbn [Py.first_char].
  destruct (Py.last_char (String c rest)) as [b|] eqn:Eb; [|congruence].
  intros H. apply andb_true_iff in H. destruct H as [Hc Hb].
  apply negb_true_iff in Hc. apply negb_true_iff in Hb.
  assert (Hl : Py.lstrip (String c rest) = String c rest)
    by (simpl; rewrite Hc; reflexivity).
  rewrite Hl. apply rstrip_fixed. rewrite Eb. exact Hb.
Qed.

Lemma strip_clean piece :
  Py.contains "," piece = false -> clean_token (Py.strip piece) = true.
Proof.
  intros H. unfold clean_token. apply andb_true_iff. split.
  - apply negb_true_iff. unfold Py.strip.
    apply rstrip_contains, lstrip_contains. exact H.
  - apply strip_spec.
Qed.

Lemma new_recipe_clean w : ingredients_clean (new_recipe w) = true.
Proof.
  unfold ingredients_clean, new_recipe. simpl.
  pose proof (split_not_nil "," (ingredients w)) as Hne.
  pose proof (split_tokens_free "," (ingredients w)) as Hfree.
  destruct (Py.split "," (ingredients w)) as [|p ps]; [congruence|].
  cbn [map negb andb]. apply forallb_forall. intros tok Hin.
  change (In tok (map Py.strip (p :: ps))) in Hin.
  apply in_map_iff in Hin. destruct Hin as [piece [<- Hpiece]].
  apply strip_clean. rewrite Forall_forall in Hfree. apply Hfree.
  exact Hpiece.
Qed.

Lemma set_loc_forallb (ok : recipe -> bool) label values df :
  ok values = true ->
  forallb (fun row => ok (snd row)) df = true ->
  forallb (fun row => ok (snd row)) (pd.set_loc label values df) = true.
Proof.
  unfold pd.set_loc. intros Hv Hdf.
  destruct (pd.has_label label df).
  - rewrite forallb_forall in *. intros row Hin.
    apply in_map_iff in Hin. destruct Hin as [row0 [<- Hin0]].
    destruct (String.eqb (fst row0) label); simpl; auto.
  - rewrite forallb_app, Hdf. simpl. rewrite Hv. reflexivity.
Qed.

Lemma split_cons_other sep c s :
  Ascii.eqb c sep = false ->
  Py.split sep (String c s)
  = match Py.split sep s with
    | tok :: toks => String c tok :: toks
    | [] => [String c EmptyString]
    end.
Proof. intros H. simpl. rewrite H. reflexivity. Qed.

Lemma split_free sep s :
  Py.contains sep s = false -> Py.split sep s = [s].
Proof.
  induction s as [|c rest IH]; simpl; [reflexivity|].
  intros H. apply orb_false_iff in H. destruct H as [Hc Hrest].
  rewrite Hc, (IH Hrest). reflexivity.
Qed.

Lemma split_app_sep sep s rest :
  Py.contains sep s = false ->
  Py.split sep (s ++ String sep rest) = s :: Py.split sep rest.
Proof.
  induction s as [|c s' IH]; simpl.
  - intros _. rewrite Ascii.eqb_refl. reflexivity.
  - intros H. apply orb_false_iff in H. destruct H as [Hc Hs'].
    rewrite Hc, (IH Hs'). reflexivity.
Qed.

(** Splitting a card's ingredients line on commas and stripping the
    pieces gives the clean ingredients back. *)
Lemma strip_split_join toks :
  toks <> [] -> forallb clean_token toks = true ->
  map Py.strip (Py.split "," (Py.join ", " toks)) = toks.
Proof.
  induction toks as [|t rest IH]; [congruence|]. intros _ Hclean.
  simpl in Hclean. apply andb_true_iff in Hclean.
  destruct Hclean as [Ht Hrest]. unfold clean_token in Ht.
  apply andb_true_iff in Ht. destruct Ht as [Hfree Htrim].
  apply negb_true_iff in Hfree.
  destruct rest as [|t2 rest'].
  - simpl. rewrite (split_free _ _ Hfree). simpl.
    rewrite (strip_trimmed _ Htrim). reflexivity.
  - rewrite join_cons by discriminate.
    change (t ++ ", " ++ Py.join ", " (t2 :: rest'))%string
      with (t ++ String "," (String " " (Py.join ", " (t2 :: rest'))))%string.
    rewrite (split_app_sep _ _ _ Hfree).
    rewrite split_cons_other by reflexivity.
    specialize (IH ltac:(discriminate) Hrest).
    pose proof (split_not_nil "," (Py.join ", " (t2 :: rest'))) as Hne.
    destruct (Py.split "," (Py.join ", " (t2 :: rest'))) as [|h tl];
      [congruence|].
    cbn [map] in *. rewrite (strip_trimmed _ Htrim). f_equal.
    exact IH.
Qed.




Lemma set_loc_In_new label values df :
  In (label, values) (pd.set_loc label values df).
Proof.
  unfold pd.set_loc. destruct (pd.has_label label df) eqn:Hl.
  - unfold pd.has_label in Hl. apply existsb_exists in Hl.
    destruct Hl as [row [Hin Heq]]. apply in_map_iff. exists row.
    rewrite Heq. apply String.eqb_eq in Heq. rewrite Heq. tauto.
  - apply in_or_app. right. left. reflexivity.
Qed.

Section Ingredients.

Variable image : Type.
Variable generate : string -> outcome image.

(** X14. In every table the script can hold, every row has at least one
    ingredient, and no stored ingredient holds a comma or starts or ends
    with whitespace. *)
Theorem stored_ingredients_clean (runs : list interaction) (df : DataFrame) :
  recipes (session_after_all generate new_session runs) = Some df ->
  Forall (fun row =>
            Ingredients (snd row) <> []
            /\ Forall (fun tok => Py.contains "," tok = false
                                  /\ Py.trimmed tok = true)
                      (Ingredients (snd row))) df.
Proof.
  intros Hdf.
  assert (Hclean : forallb (fun row => ingredients_clean (snd row)) df
                   = true).
  { revert Hdf.
    apply (@after_all_invariant image generate
             (fun df => forallb (fun row => ingredients_clean (snd row)) df
                        = true) (fun _ => true)).
    - intros s i _ Hs. destruct i as [w|w|w|]; simpl; try exact Hs.
      destruct (accepted w); [|exact Hs].
      apply set_loc_forallb; [apply new_recipe_clean|exact Hs].
    - clear. induction runs; simpl; auto.
    - vm_compute. reflexivity. }
  rewrite forallb_forall in Hclean. apply Forall_forall. intros row Hin.
  specialize (Hclean row Hin). unfold ingredients_clean in Hclean.
  apply andb_true_iff in Hclean. destruct Hclean as [Hne Htoks]. split.
  - destruct (Ingredients (snd row)); [discriminate|discriminate].
  - rewrite forallb_forall in Htoks. apply Forall_forall. intros tok Htok.
    specialize (Htoks tok Htok). unfold clean_token in Htoks.
    apply andb_true_iff in Htoks. destruct Htoks as [H1 H2].
    apply negb_true_iff in H1. split; assumption.
Qed.

(** X15. A card's ingredients line can be typed back: for a row whose
    ingredients are clean (as all stored rows are), splitting the line
    [', '.join(ingredients)] on commas and stripping the pieces gives the
    stored list again, so the form filled in from the card builds the very
    same row. *)
Theorem card_round_trip (label : string) (data : recipe) :
  ingredients_clean data = true ->
  map Py.strip (Py.split "," (card_ingredients data)) = Ingredients data
  /\ new_recipe (form_from_card label data) = data.
Proof.
  intros Hclean. unfold ingredients_clean in Hclean.
  apply andb_true_iff in Hclean. destruct Hclean as [Hne Htoks].
  assert (Hback : map Py.strip (Py.split "," (card_ingredients data))
                  = Ingredients data).
  { unfold card_ingredients. apply strip_split_join; [|exact Htoks].
    destruct (Ingredients data); [discriminate|discriminate]. }
  split; [exact Hback|].
  unfold new_recipe, form_from_card. simpl. rewrite Hback.
  destruct data; reflexivity.
Qed.


(** X17. A recipe just added is on show: after an accepted submission the
    recipe explorer lists the new row under its cuisine, which is then one
    of the selector's options, and the smart search lists it exactly when
    its prep time, rating and difficulty pass the three filters. *)
Theorem added_recipe_shown (s : session_state) (w : form_widgets) :
  accepted w = true ->
  let s' := session_after generate s (Add_Recipe w) in
  In (cuisine w) (cuisine_options (table_at_start s'))
  /\ In (name w, new_recipe w)
        (cards_on (page (snd (run generate s'
                                (Recipe_Explorer (mkExplorer (cuisine w)))))))
  /\ (forall ws,
         In (name w, new_recipe w)
            (cards_on (page (snd (run generate s' (Smart_Search ws)))))
         <-> (prep_time w <= max_time ws)%Z
             /\ Float.ge (rating w) (min_rating ws) = true
             /\ In (form_difficulty w) (difficulty ws)).
Proof.
  intros Hacc s'.
  assert (Htable : table_at_start s'
                   = pd.set_loc (name w) (new_recipe w) (table_at_start s)).
  { unfold s'. rewrite session_after_spec. simpl. rewrite Hacc.
    reflexivity. }
  assert (Hin : In (name w, new_recipe w) (table_at_start s'))
    by (rewrite Htable; apply set_loc_In_new).
  split; [|split].
  - apply cuisine_options_In. exists (name w, new_recipe w).
    split; [exact Hin|reflexivity].
  - rewrite run_unfold.
    erewrite handle_recipe_explorer_spec by reflexivity.
    simpl page. unfold explorer_page.
    rewrite !cards_on_app, cards_on_cards. apply in_or_app. right.
    apply in_or_app. left. apply with_cuisine_In. split;
      [exact Hin|reflexivity].
  - intros ws. rewrite run_unfold.
    erewrite handle_smart_search_spec by reflexivity. simpl page.
    assert (Hcards : forall found : DataFrame,
               cards_on (@search_page image found) = found).
    { intros [|row rows]; [reflexivity|].
      unfold search_page.
      change (cards_on (Header "Advanced Search"
                        :: Subheader_found (List.length (row :: rows))
                        :: cards (row :: rows)))
        with (cards_on (@cards image (row :: rows))).
      apply cards_on_cards. }
    rewrite Hcards, smart_search_In. unfold matches. simpl.
    rewrite !andb_true_iff, Z.leb_le, existsb_eqb_In. tauto.
Qed.

End Ingredients.

(** ** Concrete runs of the further properties *)

Lemma initialize_data_once_witness :
  snd (initialize_data seed_world) = seed_world.
Proof.
  apply (proj1 (proj2 (proj2 (proj2 (initialize_data_once seed_world))))
           seed_recipes).
  reflexivity.
Defined.

Lemma smart_search_monotone_witness :
  incl (smart_search_filter seed_recipes 20 Float.f4_5 ["Medium"])
       (smart_search_filter seed_recipes 60 Float.f3_0 ["Easy"; "Medium"]).
Proof.
  apply (@smart_search_monotone seed_recipes 20 60 Float.f4_5 Float.f3_0
           ["Medium"] ["Easy"; "Medium"]).
  - lia.
  - reflexivity.
  - intros d [<-|[]]. simpl. tauto.
Defined.

Lemma slow_recipe_never_found_witness :
  form_widgets_ok form_slow = true
  /\ ~ In "Cassoulet"
         (pd.index
            (smart_search_filter
               (pd.set_loc "Cassoulet" (new_recipe form_slow) seed_recipes)
               120 Float.f1_0 ["Easy"; "Medium"; "Hard"])).
Proof.
  split; [reflexivity|].
  apply (@slow_recipe_never_found form_slow search_widest seed_recipes).
  - reflexivity.
  - simpl. lia.
Defined.

Lemma widest_search_finds_witness :
  smart_search_filter
    (seed_recipes ++ [("Cassoulet", new_recipe form_slow)])
    120 Float.f1_0 ["Easy"; "Medium"; "Hard"]
  = filter (fun row => (Prep_Time (snd row) <=? 120)%Z)
      (seed_recipes ++ [("Cassoulet", new_recipe form_slow)]).
Proof.
  apply (@widest_search_finds string text_cloud [Add_Recipe form_slow]).
  - reflexivity.
  - reflexivity.
Defined.

Lemma add_new_appends_witness :
  recipes (session_after text_cloud new_session (Add_Recipe form_X))
  = Some (seed_recipes ++ [("X", new_recipe form_X)]).
Proof.
  apply (@add_new_appends string text_cloud new_session form_X).
  - reflexivity.
  - simpl. intuition discriminate.
Defined.

Lemma last_submission_wins_witness :
  session_after text_cloud
    (session_after text_cloud new_session (Add_Recipe form_X))
    (Add_Recipe form_X_again)
  = session_after text_cloud new_session (Add_Recipe form_X_again).
Proof.
  apply (@last_submission_wins string text_cloud new_session form_X
           form_X_again); reflexivity.
Defined.

Lemma submissions_commute_witness :
  store_size
    (session_after text_cloud
       (session_after text_cloud new_session (Add_Recipe form_X))
       (Add_Recipe form_slow))
  = store_size
      (session_after text_cloud
         (session_after text_cloud new_session (Add_Recipe form_slow))
         (Add_Recipe form_X)).
Proof.
  apply (proj1 (@submissions_commute string text_cloud new_session form_X
                  form_slow eq_refl eq_refl ltac:(discriminate))).
Defined.

Lemma labels_keep_seeds_witness :
  NoDup (pd.index seed_recipes ++ ["X"])
  /\ firstn 3 (pd.index seed_recipes ++ ["X"])
     = ["Spaghetti Carbonara"; "Chicken Tikka Masala"; "Avocado Toast"].
Proof.
  apply (@labels_keep_seeds string text_cloud
           [Add_Recipe form_carbonara; Add_Recipe form_X]
           (pd.set_loc "X" (new_recipe form_X)
              (pd.set_loc "Spaghetti Carbonara" (new_recipe form_carbonara)
                 seed_recipes))).
  reflexivity.
Defined.

Lemma stored_ingredients_clean_witness :
  Forall (fun row =>
            Ingredients (snd row) <> []
            /\ Forall (fun tok => Py.contains "," tok = false
                                  /\ Py.trimmed tok = true)
                      (Ingredients (snd row)))
         (seed_recipes ++ [("X", recipe_X)]).
Proof.
  apply (@stored_ingredients_clean string text_cloud [Add_Recipe form_X]).
  reflexivity.
Defined.

Lemma card_round_trip_witness :
  card_ingredients recipe_X = "a, b, c"
  /\ new_recipe (form_from_card "X" recipe_X) = recipe_X.
Proof.
  split; [reflexivity|].
  apply (proj2 (@card_round_trip "X" recipe_X eq_refl)).
Defined.


Lemma added_recipe_shown_witness :
  In ("X", new_recipe form_X)
     (cards_on
        (page (snd (run text_cloud
                      (session_after text_cloud new_session
                         (Add_Recipe form_X))
                      (Recipe_Explorer (mkExplorer "Y")))))).
Proof.
  apply (proj1 (proj2 (@added_recipe_shown string text_cloud new_session
                         form_X eq_refl))).
Defined.
